(** * asciidoclive: the JSON route layer of [lib/app_server_lib.py]

    A shallow embedding of the Flask view functions of the web app server
    library and of the three decorators that wrap them, followed by the
    properties of the handlers.

    The handlers are thin compositions of calls into collaborators that live
    in other modules ([models_lib], [auth_lib], [asciidoc_lib], [env_lib],
    flask-login, [json]).  Those collaborators are taken as an interface
    (the class [Collaborators]); the handlers are written against it in a
    state-and-exception monad over an explicit [World].

    What the model takes for granted about the collaborators:
    - a call into a collaborator returns normally, except [save], whose
      [NotUniqueError] and [ValidationError] the handlers catch and which
      may raise anything else as well;
    - lookups and permission predicates read and do not write;
    - a document object found by [Get] is true in a Python condition;
    - [login_user] logs the user in (users are active), [logout_user]
      leaves the anonymous user, and the anonymous user is the only one
      for which [is_authenticated()] is false.
    A handler starts from the value [flask.request.get_json()] returned;
    the URL map that routes a request to its handler is modelled on its
    own, in [Routing]. *)

From Stdlib Require Import Ascii.
From stdpp Require Import gmap strings list fin_maps.

#[local] Set Warnings "-register-all".
#[local] Open Scope string_scope.
#[local] Open Scope Z_scope.

(** ** JSON values

    What [flask.request.get_json()] hands to a view function and what a view
    function hands to [json.dumps].  A Python [dict] with string keys is a
    finite map; [None] is [JNull].  A number that is not integral behaves,
    for every operation used by the handlers (truth value, [len], dictionary
    key test), like a non-zero integer, so numbers carry a [Z].  A text
    (a unicode string of Python) is held as its UTF-8 encoding: equality,
    emptiness and the substring test are those of the bytes, and its
    length is counted in characters (see [Py.str_len]). *)

Inductive json : Type :=
  | JNull
  | JBool (b : bool)
  | JNum (n : Z)
  | JStr (s : string)
  | JList (l : list json)
  | JObj (m : gmap string json).

Abbreviation dict := (gmap string json).

(** ** Exceptions and outcomes *)

Inductive exn : Type :=
  | TypeError
  | KeyError
  | AttributeError
  | NotUniqueError      (* mongoengine.errors.NotUniqueError *)
  | ValidationError     (* mongoengine.errors.ValidationError *)
  | OtherError (msg : string).

(** The outcome of running Python code: a value, an exception that
    propagates, or a loop cut off by the fuel of the model. *)
Inductive outcome (A : Type) : Type :=
  | Return (a : A)
  | Raise (e : exn)
  | OutOfFuel.
Arguments Return {A} a.
Arguments Raise {A} e.
Arguments OutOfFuel {A}.

#[export] Instance outcome_ret : MRet outcome := fun A a => Return a.

#[export] Instance outcome_bind : MBind outcome := fun A B k o =>
  match o with
  | Return a => k a
  | Raise e => Raise e
  | OutOfFuel => OutOfFuel
  end.

(** ** The Python operators the handlers apply to request data *)

Module Py.

(** [needle in hay] on two strings: substring test. *)
Fixpoint str_contains (needle hay : string) : bool :=
  String.prefix needle hay ||
  match hay with
  | EmptyString => false
  | String _ rest => str_contains needle rest
  end.

Definition is_str (key : string) (v : json) : bool :=
  match v with
  | JStr s => String.eqb s key
  | _ => false
  end.

(** [key in container] for a string [key]. *)
Definition contains (key : string) (container : json) : outcome bool :=
  match container with
  | JObj m => Return (bool_decide (is_Some (m !! key)))
  | JList l => Return (existsb (is_str key) l)
  | JStr s => Return (str_contains key s)
  | JNull | JBool _ | JNum _ => Raise TypeError
  end.

(** [container[key]] for a string [key]. *)
Definition getitem (container : json) (key : string) : outcome json :=
  match container with
  | JObj m =>
      match m !! key with
      | Some v => Return v
      | None => Raise KeyError
      end
  | _ => Raise TypeError
  end.

(** [container.get(key, None)]: only a [dict] has the method. *)
Definition get (container : json) (key : string) : outcome json :=
  match container with
  | JObj m => Return (default JNull (m !! key))
  | _ => Raise AttributeError
  end.

(** A byte of the encoding that continues a character: 10xxxxxx. *)
Definition continues_character (c : ascii) : bool :=
  match c with
  | Ascii _ _ _ _ _ _ b6 b7 => b7 && negb b6
  end.

(** [len(s)] of a text: the number of its characters, that is, of the
    bytes of its encoding that begin one. *)
Fixpoint str_len (s : string) : nat :=
  match s with
  | EmptyString => 0%nat
  | String c rest =>
      if continues_character c then str_len rest else S (str_len rest)
  end.

(** [len(v)]. *)
Definition len (v : json) : outcome nat :=
  match v with
  | JStr s => Return (str_len s)
  | JList l => Return (length l)
  | JObj m => Return (size m)
  | JNull | JBool _ | JNum _ => Raise TypeError
  end.

(** The truth value of [v], as [if v] and [not v] take it. *)
Definition truthy (v : json) : bool :=
  match v with
  | JNull => false
  | JBool b => b
  | JNum n => negb (n =? 0)
  | JStr s => negb (Nat.eqb (String.length s) 0)
  | JList l => negb (Nat.eqb (length l) 0)
  | JObj m => negb (Nat.eqb (size m) 0)
  end.

(** [isinstance(v, list)]. *)
Definition is_list (v : json) : bool :=
  match v with
  | JList _ => true
  | _ => false
  end.

(** [v] can be hashed: it is not a list or a dict. *)
Definition hashable (v : json) : bool :=
  match v with
  | JList _ | JObj _ => false
  | _ => true
  end.

(** [v in table] for a table keyed by strings: an unhashable [v] raises,
    a hashable [v] that is not a string is no key of the table. *)
Definition in_table {P : Type} (v : json) (table : gmap string P)
  : outcome bool :=
  match v with
  | JStr s => Return (bool_decide (is_Some (table !! s)))
  | JList _ | JObj _ => Raise TypeError
  | JNull | JBool _ | JNum _ => Return false
  end.

(** [table[v]] for a table keyed by strings. *)
Definition table_getitem {P : Type} (table : gmap string P) (v : json)
  : outcome P :=
  match v with
  | JStr s =>
      match table !! s with
      | Some p => Return p
      | None => Raise KeyError
      end
  | JList _ | JObj _ => Raise TypeError
  | JNull | JBool _ | JNum _ => Raise KeyError
  end.

End Py.

(** ** Some stock responses *)

Definition _SUCCESS_RESPONSE : dict :=
  {[ "success" := JBool true ]}.

Definition _INVALID_REQUEST_RESPONSE : dict :=
  {[ "success" := JBool false;
     "error_message" := JStr "Invalid request" ]}.

Definition _NOT_AUTHENTICATED_RESPONSE : dict :=
  {[ "success" := JBool false;
     "error_message" := JStr "Not authenticated" ]}.

Definition _INVALID_DOCUMENT_ID_RESPONSE : dict :=
  {[ "success" := JBool false;
     "error_message" := JStr "Invalid document ID" ]}.

(** [json.dumps] of a response: the body sent to the client, kept as the
    JSON document it denotes rather than as its text. *)
Definition json_dumps (response : dict) : json := JObj response.

(** The literal that [Auth] returns for a token the provider rejects. *)
Definition invalid_token_response : dict :=
  {[ "success" := JBool false;
     "error_message" := JStr "Invalid token" ]}.

(** ** The collaborators

    Everything the route layer calls but does not define, taken as
    parameters: they are defined in the modules [env_lib], [asciidoc_lib],
    [auth_lib] and [models_lib], in flask-login and in mongoengine.  [User] is the
    site's user object, [Fields] the persisted fields of a document other
    than its identifier and owner, [Store] the document collection, [Users]
    the account table and [Rng] the source of fresh identifiers.

    [save] returns the exception it raises, if any, together with the
    store it leaves: nothing is assumed here about what a failing save
    has written. *)

Section Model.

Context {User Fields Store Users Rng : Type}.

(** A [models_lib.UserDocument] object held by a handler. *)
Record Document : Type := mkDocument {
  document_id : json;
  owner : option User;
  fields : Fields;
}.

Definition set_document_id (id : string) (d : Document) : Document :=
  {| document_id := JStr id; owner := owner d; fields := fields d |}.

Definition set_owner (u : option User) (d : Document) : Document :=
  {| document_id := document_id d; owner := u; fields := fields d |}.

(** One account assertion accepted by [Auth]:
    [(account_provider_type, user_id, data)]. *)
Definition account : Type := json * json * json.

Class Collaborators : Type := {
  (* env_lib *)
  MAX_SOURCE_TEXT_SIZE : Z;
  (* asciidoc_lib: (return_code, stdout_output, stderr_output) *)
  GetAsciiDocResult : json -> Z * string * string;
  (* auth_lib: each provider is its IsTokenValid(user_id, auth_token) *)
  ACCOUNT_PROVIDERS : gmap string (json -> json -> bool);
  FindOrCreateUser : list account -> Users -> User * Users;
  user_id : User -> json;
  (* models_lib.UserDocument *)
  UserDocument_fields : Fields;
  FromJson : Document -> json -> Document;
  toJson : Document -> dict;
  IsReadableByUser : Document -> option User -> bool;
  IsWritableByUser : Document -> option User -> bool;
  NewDocumentId : Store -> Rng -> string * Rng;
  Get : Store -> string -> option Document;
  save : Document -> Store -> option exn * Store;
  delete : Document -> Store -> Store;
}.

Context `{Collaborators}.

(** [models_lib.UserDocument()]: a document not yet identified or owned. *)
Definition UserDocument : Document :=
  {| document_id := JNull; owner := None; fields := UserDocument_fields |}.

(** ** The world a request runs in *)

(** The calls a handler makes into the model layer, the account library,
    the renderer and the session, in the order it makes them. *)
Inductive Call : Type :=
  | CallGetAsciiDocResult (text : json)
  | CallIsTokenValid (account_provider_type user_id auth_token : json)
  | CallFindOrCreateUser (accounts : list account)
  | CallLoginUser (u : User)
  | CallLogoutUser
  | CallNewDocumentId
  | CallGet (id : string)
  | CallIsReadableByUser (d : Document)
  | CallIsWritableByUser (d : Document)
  | CallSave (d : Document)
  | CallDelete (d : Document).

Record World : Type := mkWorld {
  current_user : option User;   (* login.current_user; None is anonymous *)
  store : Store;
  users : Users;
  rng : Rng;
  log : list Call;
}.

Definition with_current_user (u : option User) (w : World) : World :=
  {| current_user := u; store := store w; users := users w;
     rng := rng w; log := log w |}.
Definition with_store (s : Store) (w : World) : World :=
  {| current_user := current_user w; store := s; users := users w;
     rng := rng w; log := log w |}.
Definition with_users (us : Users) (w : World) : World :=
  {| current_user := current_user w; store := store w; users := us;
     rng := rng w; log := log w |}.
Definition with_rng (r : Rng) (w : World) : World :=
  {| current_user := current_user w; store := store w; users := users w;
     rng := r; log := log w |}.
Definition logged (c : Call) (w : World) : World :=
  {| current_user := current_user w; store := store w; users := users w;
     rng := rng w; log := log w ++ [c] |}.

(** ** The monad of handlers: state that survives an exception *)

Definition M (A : Type) : Type := World -> outcome A * World.

#[export] Instance M_ret : MRet M := fun A a w => (Return a, w).

#[export] Instance M_bind : MBind M := fun A B k c w =>
  match c w with
  | (Return a, w') => k a w'
  | (Raise e, w') => (Raise e, w')
  | (OutOfFuel, w') => (OutOfFuel, w')
  end.

Definition out_of_fuel {A} : M A := fun w => (OutOfFuel, w).

(** A pure Python operation, which returns or raises. *)
Definition py {A} (o : outcome A) : M A := fun w => (o, w).

(** [try: body / except ...: handler e]; an exception for which [handlers]
    has no clause propagates. *)
Definition try_except {A} (body : M A) (handlers : exn -> option (M A))
  : M A := fun w =>
  match body w with
  | (Raise e, w') =>
      match handlers e with
      | Some h => h w'
      | None => (Raise e, w')
      end
  | r => r
  end.

(** *** Calls into the collaborators *)

Definition is_authenticated : M bool := fun w =>
  (Return (bool_decide (is_Some (current_user w))), w).

Definition get_current_user : M (option User) := fun w =>
  (Return (current_user w), w).

Definition login_user (u : User) : M unit := fun w =>
  (Return tt, with_current_user (Some u) (logged (CallLoginUser u) w)).

Definition logout_user : M unit := fun w =>
  (Return tt, with_current_user None (logged CallLogoutUser w)).

Definition call_GetAsciiDocResult (text : json)
  : M (Z * string * string) := fun w =>
  (Return (GetAsciiDocResult text), logged (CallGetAsciiDocResult text) w).

Definition call_IsTokenValid (provider : json -> json -> bool)
    (account_provider_type user_id auth_token : json) : M bool := fun w =>
  (Return (provider user_id auth_token),
   logged (CallIsTokenValid account_provider_type user_id auth_token) w).

Definition call_FindOrCreateUser (accounts : list account) : M User :=
  fun w =>
  let '(user, us) := FindOrCreateUser accounts (users w) in
  (Return user, with_users us (logged (CallFindOrCreateUser accounts) w)).

Definition call_NewDocumentId : M string := fun w =>
  let '(id, r) := NewDocumentId (store w) (rng w) in
  (Return id, with_rng r (logged CallNewDocumentId w)).

Definition call_Get (id : string) : M (option Document) := fun w =>
  (Return (Get (store w) id), logged (CallGet id) w).

Definition call_IsReadableByUser (d : Document) : M bool := fun w =>
  (Return (IsReadableByUser d (current_user w)),
   logged (CallIsReadableByUser d) w).

Definition call_IsWritableByUser (d : Document) : M bool := fun w =>
  (Return (IsWritableByUser d (current_user w)),
   logged (CallIsWritableByUser d) w).

Definition call_save (d : Document) : M unit := fun w =>
  let '(r, s) := save d (store w) in
  (match r with Some e => Raise e | None => Return tt end,
   with_store s (logged (CallSave d) w)).

Definition call_delete (d : Document) : M unit := fun w =>
  (Return tt, with_store (delete d (store w)) (logged (CallDelete d) w)).

(** ** The decorators *)

(** [_JsonView]: passes the request's JSON body, [request_json] (what
    [flask.request.get_json()] returned), to the view function as its
    first argument and serialises what the view function returns. *)
Definition _JsonView {Args : Type}
    (view_function : json -> Args -> M dict)
    (request_json : json) (args : Args) : M json :=
  response ← view_function request_json args;
  mret (json_dumps response).

(** [_RequireAuth]: answers [_NOT_AUTHENTICATED_RESPONSE] when the user
    is not logged in. *)
Definition _RequireAuth {Args : Type}
    (view_function : json -> Args -> M dict)
    (request_data : json) (args : Args) : M dict :=
  authenticated ← is_authenticated;
  if negb authenticated then mret _NOT_AUTHENTICATED_RESPONSE
  else view_function request_data args.

(** [_RequireText]: answers [_INVALID_REQUEST_RESPONSE] when the "text"
    parameter is not present or is longer than [MAX_SOURCE_TEXT_SIZE].
    The [or] of the source evaluates its right operand only when the
    key is present. *)
Definition _RequireText {Args : Type}
    (view_function : json -> Args -> M dict)
    (request_data : json) (args : Args) : M dict :=
  present ← py (Py.contains "text" request_data);
  if negb present then mret _INVALID_REQUEST_RESPONSE
  else
    text ← py (Py.getitem request_data "text");
    n ← py (Py.len text);
    if MAX_SOURCE_TEXT_SIZE <? Z.of_nat n
    then mret _INVALID_REQUEST_RESPONSE
    else view_function request_data args.

(** ** The view functions *)

(** *** [AsciiDocToHtml] *)

Definition AsciiDocToHtml_body (request_data : json) (_ : unit) : M dict :=
  text ← py (Py.getitem request_data "text");
  '(return_code, stdout_output, stderr_output) ←
    call_GetAsciiDocResult text;
  mret {[ "success" := JBool (return_code =? 0);
          "html" := JStr stdout_output;
          "error_message" := JStr stderr_output ]}.

Definition AsciiDocToHtml : json -> unit -> M json :=
  _JsonView (_RequireText AsciiDocToHtml_body).

(** *** [Auth] *)

(** The condition of the [if] at the head of the loop body: true when
    [account_data] is rejected.  Each [or] stops at its first true
    operand. *)
Definition Auth_rejects (account_data : json) : outcome bool :=
  provider_type ← Py.get account_data "account_provider_type";
  if negb (Py.truthy provider_type) then mret true
  else
    uid ← Py.get account_data "user_id";
    if negb (Py.truthy uid) then mret true
    else
      auth_token ← Py.get account_data "auth_token";
      if negb (Py.truthy auth_token) then mret true
      else
        provider_type ← Py.getitem account_data "account_provider_type";
        known ← Py.in_table provider_type ACCOUNT_PROVIDERS;
        mret (negb known).

(** The [for] loop over the submitted list: [inl response] when the body
    returns from the handler, [inr accounts] when the list is used up. *)
Fixpoint Auth_for (remaining : list json) (accounts : list account)
  : M (dict + list account) :=
  match remaining with
  | [] => mret (inr accounts)
  | account_data :: remaining' =>
      rejected ← py (Auth_rejects account_data);
      if (rejected : bool) then mret (inl _INVALID_REQUEST_RESPONSE)
      else
        provider_type ← py (Py.getitem account_data "account_provider_type");
        account_provider ←
          py (Py.table_getitem ACCOUNT_PROVIDERS provider_type);
        uid ← py (Py.getitem account_data "user_id");
        auth_token ← py (Py.getitem account_data "auth_token");
        valid ← call_IsTokenValid account_provider provider_type
                  uid auth_token;
        if negb valid then mret (inl invalid_token_response)
        else
          data ← py (Py.getitem account_data "data");
          Auth_for remaining' (accounts ++ [(provider_type, uid, data)])
  end.

(** [for ... in v] over a JSON value that is a list. *)
Definition iter_list (v : json) : outcome (list json) :=
  match v with
  | JList l => Return l
  | _ => Raise TypeError
  end.

(** [request_data['accounts']] is evaluated anew by each use in the
    source; the lookup is pure, so it is bound once here.
    [logging.debug] is left out. *)
Definition Auth_body (request_data : json) (_ : unit) : M dict :=
  present ← py (Py.contains "accounts" request_data);
  if negb present then mret _INVALID_REQUEST_RESPONSE
  else
    submitted ← py (Py.getitem request_data "accounts");
    if negb (Py.is_list submitted) || negb (Py.truthy submitted)
    then mret _INVALID_REQUEST_RESPONSE
    else
      account_list ← py (iter_list submitted);
      r ← Auth_for account_list [];
      match r with
      | inl response => mret response
      | inr accounts =>
          (* All accounts valid. *)
          user ← call_FindOrCreateUser accounts;
          login_user user;;
          mret {[ "success" := JBool true;
                  "user_id" := user_id user ]}
      end.

Definition Auth : json -> unit -> M json :=
  _JsonView Auth_body.

(** *** [Logout] *)

Definition Logout_body (_ : json) (_ : unit) : M dict :=
  logout_user;;
  mret _SUCCESS_RESPONSE.

Definition Logout : json -> unit -> M json :=
  _JsonView (_RequireAuth Logout_body).

(** *** [CreateDocument] *)

(** How one turn of the [while True] loop ends. *)
Inductive loop_exit : Type :=
  | LoopContinue                 (* except NotUniqueError: pass *)
  | LoopReturn (response : dict) (* except ValidationError: return ... *)
  | LoopBreak.                   (* else: break *)

Definition CreateDocument_try_save (document : Document) : M loop_exit :=
  try_except
    (call_save document;; mret LoopBreak)
    (fun e =>
       match e with
       | NotUniqueError => Some (mret LoopContinue)
       | ValidationError =>
           Some (mret (LoopReturn _INVALID_REQUEST_RESPONSE))
       | _ => None
       end).

(** The [while True] loop, at most [fuel] turns of it. *)
Fixpoint CreateDocument_while (fuel : nat) (document : Document)
  : M (dict + Document) :=
  match fuel with
  | O => out_of_fuel
  | S fuel' =>
      id ← call_NewDocumentId;
      let document := set_document_id id document in
      exit ← CreateDocument_try_save document;
      match exit with
      | LoopContinue => CreateDocument_while fuel' document
      | LoopReturn response => mret (inl response)
      | LoopBreak => mret (inr document)
      end
  end.

Definition CreateDocument_body (fuel : nat) (request_data : json)
    (_ : unit) : M dict :=
  let document := UserDocument in
  user ← get_current_user;   (* login.current_user._get_current_object() *)
  let document := set_owner user document in
  let document := FromJson document request_data in
  r ← CreateDocument_while fuel document;
  match r with
  | inl response => mret response
  | inr document =>
      mret {[ "success" := JBool true;
              "document_id" := document_id document ]}
  end.

Definition CreateDocument (fuel : nat) : json -> unit -> M json :=
  _JsonView (_RequireAuth (_RequireText (CreateDocument_body fuel))).

(** *** [GetDocument] *)

Definition GetDocument_body (_ : json) (id : string) : M dict :=
  document ← call_Get id;
  match document with
  | None => mret _INVALID_DOCUMENT_ID_RESPONSE
  | Some document =>
      readable ← call_IsReadableByUser document;
      if negb readable then mret _NOT_AUTHENTICATED_RESPONSE
      else
        let response := toJson document in
        let response := <[ "success" := JBool true ]> response in
        mret response
  end.

Definition GetDocument : json -> string -> M json :=
  _JsonView (_RequireAuth GetDocument_body).

(** *** [SaveDocument] *)

Definition SaveDocument_body (request_data : json) (id : string)
  : M dict :=
  document ← call_Get id;
  match document with
  | None => mret _INVALID_DOCUMENT_ID_RESPONSE
  | Some document =>
      writable ← call_IsWritableByUser document;
      if negb writable then mret _NOT_AUTHENTICATED_RESPONSE
      else
        let document := FromJson document request_data in
        try_except
          (call_save document;; mret _SUCCESS_RESPONSE)
          (fun e =>
             match e with
             | ValidationError => Some (mret _INVALID_REQUEST_RESPONSE)
             | _ => None
             end)
  end.

Definition SaveDocument : json -> string -> M json :=
  _JsonView (_RequireAuth (_RequireText SaveDocument_body)).

(** *** [DeleteDocument] *)

Definition DeleteDocument_body (_ : json) (id : string) : M dict :=
  document ← call_Get id;
  match document with
  | None => mret _INVALID_DOCUMENT_ID_RESPONSE
  | Some document =>
      writable ← call_IsWritableByUser document;
      if negb writable then mret _NOT_AUTHENTICATED_RESPONSE
      else
        call_delete document;;
        mret _SUCCESS_RESPONSE
  end.

Definition DeleteDocument : json -> string -> M json :=
  _JsonView (_RequireAuth DeleteDocument_body).

End Model.

Arguments Document : clear implicits.
Arguments Collaborators : clear implicits.
Arguments Call : clear implicits.
Arguments World : clear implicits.

(** ** An in-memory instance of the collaborators

    A small document store, account table and renderer on which the
    handlers can be run on concrete requests. *)

Module InMemory.

Definition User : Type := string.

Record Fields : Type := mkFields {
  persisted : bool;     (* the document has been written before *)
  content : json;       (* the request data it was last filled from *)
}.

Abbreviation Doc := (Document User Fields).

Definition Store : Type := gmap string Doc.
Definition Users : Type := list string.
Definition Rng : Type := list string.   (* identifiers still to hand out *)

Definition valid_content (c : json) : bool :=
  match Py.getitem c "text" with
  | Return (JStr _) => true
  | _ => false
  end.

Definition mark_persisted (d : Doc) : Doc :=
  {| document_id := document_id d; owner := owner d;
     fields := {| persisted := true; content := content (fields d) |} |}.

Definition mem_save (d : Doc) (s : Store) : option exn * Store :=
  if negb (valid_content (content (fields d)))
  then (Some ValidationError, s)
  else
    match document_id d with
    | JStr id =>
        if negb (persisted (fields d)) && bool_decide (is_Some (s !! id))
        then (Some NotUniqueError, s)
        else (None, <[ id := mark_persisted d ]> s)
    | _ => (Some ValidationError, s)
    end.

Definition mem_delete (d : Doc) (s : Store) : Store :=
  match document_id d with
  | JStr id => base.delete id s
  | _ => s
  end.

Definition mem_IsWritableByUser (d : Doc) (u : option User) : bool :=
  match owner d, u with
  | Some a, Some b => String.eqb a b
  | _, _ => false
  end.

Definition is_public (d : Doc) : bool :=
  match Py.getitem (content (fields d)) "visibility" with
  | Return (JStr v) => String.eqb v "public"
  | _ => false
  end.

Definition mem_IsReadableByUser (d : Doc) (u : option User) : bool :=
  mem_IsWritableByUser d u || is_public d.

Definition mem_FromJson (d : Doc) (request_data : json) : Doc :=
  {| document_id := document_id d; owner := owner d;
     fields := {| persisted := persisted (fields d);
                  content := request_data |} |}.

Definition mem_toJson (d : Doc) : dict :=
  {[ "document_id" := document_id d;
     "content" := content (fields d) ]}.

Definition mem_NewDocumentId (_ : Store) (r : Rng) : string * Rng :=
  match r with
  | id :: r' => (id, r')
  | [] => ("fresh", [])
  end.

Definition mem_FindOrCreateUser (accounts : list account) (us : Users)
  : User * Users :=
  match accounts with
  | (_, JStr uid, _) :: _ =>
      (uid, if existsb (String.eqb uid) us then us else (us ++ [uid])%list)
  | _ => ("nobody", us)
  end.

Definition good_token (_ auth_token : json) : bool :=
  match auth_token with
  | JStr t => String.eqb t "good"
  | _ => false
  end.

Definition mem_GetAsciiDocResult (text : json) : Z * string * string :=
  match text with
  | JStr s => (0, "<p>" ++ s ++ "</p>", EmptyString)
  | _ => (1, EmptyString, "not text")
  end.

#[export] Instance env : Collaborators User Fields Store Users Rng := {|
  MAX_SOURCE_TEXT_SIZE := 8;
  GetAsciiDocResult := mem_GetAsciiDocResult;
  ACCOUNT_PROVIDERS := {[ "google" := good_token ]};
  FindOrCreateUser := mem_FindOrCreateUser;
  user_id := JStr;
  UserDocument_fields := {| persisted := false; content := JNull |};
  FromJson := mem_FromJson;
  toJson := mem_toJson;
  IsReadableByUser := mem_IsReadableByUser;
  IsWritableByUser := mem_IsWritableByUser;
  NewDocumentId := mem_NewDocumentId;
  Get := fun s id => s !! id;
  save := mem_save;
  delete := mem_delete;
|}.

(** Two stored documents: a private one of bob, one of alice. *)
Definition stored (id : string) (who : User) (text : string) : Doc :=
  {| document_id := JStr id; owner := Some who;
     fields := {| persisted := true;
                  content := JObj {[ "text" := JStr text ]} |} |}.

Definition store0 : Store :=
  {[ "d1" := stored "d1" "bob" "hello";
     "d2" := stored "d2" "alice" "notes" ]}.

(** Nobody is logged in; the next identifiers collide twice. *)
Definition anonymous : World User Fields Store Users Rng :=
  {| current_user := None; store := store0; users := ["alice"; "bob"];
     rng := ["d1"; "d2"; "d3"; "d4"]; log := [] |}.

Definition as_alice : World User Fields Store Users Rng :=
  with_current_user (Some "alice") anonymous.

Definition text_request (text : string) : json :=
  JObj {[ "text" := JStr text ]}.

(** Nine characters, one more than the maximum of this instance. *)
Definition long_text_request : json := text_request "abcdefghi".

(** A request whose "text" is an empty list: within the size limit,
    but not a text the store accepts. *)
Definition list_text_request : json :=
  JObj {[ "text" := JList [] ]}.

(** An assertion that passes the shape check and whose token the
    provider accepts, but which carries no "data". *)
Definition assertion_without_data : json :=
  JObj {[ "account_provider_type" := JStr "google";
          "user_id" := JStr "carol";
          "auth_token" := JStr "good" ]}.

(** A complete assertion of carol. *)
Definition assertion_of_carol : json :=
  JObj {[ "account_provider_type" := JStr "google";
          "user_id" := JStr "carol";
          "auth_token" := JStr "good";
          "data" := JObj ∅ ]}.

Definition auth_request_of_carol : json :=
  JObj {[ "accounts" := JList [assertion_of_carol] ]}.

(** The same assertion followed by an empty object. *)
Definition auth_request_without_data : json :=
  JObj {[ "accounts" := JList [assertion_without_data; JObj ∅] ]}.

End InMemory.


(** ** Vocabulary of the statements *)

Section Vocabulary.

Context {User Fields Store Users Rng : Type}.
Context `{!Collaborators User Fields Store Users Rng}.

(** [len(request_data['text'])], when the request has a "text" value
    and that value has a length. *)
Definition text_length (request_data : json) : outcome nat :=
  text ← Py.getitem request_data "text";
  Py.len text.

(** The "text" value is present and no longer than the maximum. *)
Definition valid_text (request_data : json) : Prop :=
  ∃ n : nat, text_length request_data = Return n ∧
             Z.of_nat n <= MAX_SOURCE_TEXT_SIZE.

(** The "text" value is longer than the maximum. *)
Definition oversized_text (request_data : json) : Prop :=
  ∃ n : nat, text_length request_data = Return n ∧
             MAX_SOURCE_TEXT_SIZE < Z.of_nat n.


(** The calls in [calls] that write to the document store. *)
Definition is_write (c : Call User Fields) : bool :=
  match c with
  | CallSave _ | CallDelete _ => true
  | _ => false
  end.

(** [w'] extends the log of [w] by [calls] and nothing else happened to
    the store, the accounts, the session or the identifier source. *)
Definition only_logged (calls : list (Call User Fields))
    (w w' : World User Fields Store Users Rng) : Prop :=
  w' = {| current_user := current_user w; store := store w;
          users := users w; rng := rng w; log := log w ++ calls |}.

(** [collides n d w d' w']: starting in [w] with document [d], each of
    the next [n] identifiers handed out by [NewDocumentId] makes
    [save] raise [NotUniqueError]; [d'] is the document as last
    identified and [w'] the world after the [n]-th failed save. *)
Inductive collides
  : nat -> Document User Fields -> World User Fields Store Users Rng ->
    Document User Fields -> World User Fields Store Users Rng -> Prop :=
  | collides_O d w : collides 0 d w d w
  | collides_S n d w id w1 w2 d' w' :
      call_NewDocumentId w = (Return id, w1) ->
      call_save (set_document_id id d) w1 = (Raise NotUniqueError, w2) ->
      collides n (set_document_id id d) w2 d' w' ->
      collides (S n) d w d' w'.

(** What the loop body of [Auth] makes of one assertion. *)
Inductive verdict : Type :=
  | BadShape                 (* return _INVALID_REQUEST_RESPONSE *)
  | BadToken                 (* return the "Invalid token" response *)
  | Accepted (a : account).  (* accounts.append(...) *)

(** The loop body of [Auth] on one assertion, the call log left out. *)
Definition assess (account_data : json) : outcome verdict :=
  rejected ← Auth_rejects account_data;
  if (rejected : bool) then mret BadShape
  else
    provider_type ← Py.getitem account_data "account_provider_type";
    account_provider ← Py.table_getitem ACCOUNT_PROVIDERS provider_type;
    uid ← Py.getitem account_data "user_id";
    auth_token ← Py.getitem account_data "auth_token";
    if negb (account_provider uid auth_token) then mret BadToken
    else
      data ← Py.getitem account_data "data";
      mret (Accepted (provider_type, uid, data)).

(** The loop of [Auth] as a scan that stops at the first assertion that
    is not accepted. *)
Fixpoint scan (remaining : list json) (accounts : list account)
  : outcome (dict + list account) :=
  match remaining with
  | [] => Return (inr accounts)
  | account_data :: remaining' =>
      v ← assess account_data;
      match v with
      | BadShape => Return (inl _INVALID_REQUEST_RESPONSE)
      | BadToken => Return (inl invalid_token_response)
      | Accepted a => scan remaining' (accounts ++ [a])
      end
  end.

(** An assertion that the loop body of [Auth] can take apart: a JSON
    object that carries "data" and whose provider type, if it has one,
    can be hashed. *)
Definition assertion_object (account_data : json) : Prop :=
  ∃ (m : dict) (data : json),
    account_data = JObj m ∧ m !! "data" = Some data ∧
    Py.hashable (default JNull (m !! "account_provider_type")) = true.

(** The loop body refuses the assertion. *)
Definition refused (account_data : json) : Prop :=
  assess account_data = Return BadShape ∨
  assess account_data = Return BadToken.

(** The loop body accepts the assertion as the account [a]. *)
Definition accepted (account_data : json) (a : account) : Prop :=
  assess account_data = Return (Accepted a).

(** The calls that ask a provider to verify a token. *)
Definition is_token_check (c : Call User Fields) : bool :=
  match c with
  | CallIsTokenValid _ _ _ => true
  | _ => false
  end.


(** A failure payload: "success" is false and "error_message" is a
    string. *)
Definition failure_response (body : json) : Prop :=
  ∃ (response : dict) (msg : string),
    body = JObj response ∧
    response !! "success" = Some (JBool false) ∧
    response !! "error_message" = Some (JStr msg).

(** The "error_message" of a response body, if it has one. *)
Definition error_message_of (body : json) : option json :=
  match body with
  | JObj response => response !! "error_message"
  | _ => None
  end.

(** The calls logged between [w] and a later world [w']. *)
Definition new_calls (w w' : World User Fields Store Users Rng)
  : list (Call User Fields) :=
  drop (length (log w)) (log w').

(** Every handler behind the authentication gate answers
    [_NOT_AUTHENTICATED_RESPONSE] in [w] and leaves [w] as it is. *)
Definition gated_handlers_reject (w : World User Fields Store Users Rng)
  : Prop :=
  let rejected := (Return (json_dumps _NOT_AUTHENTICATED_RESPONSE), w) in
  (∀ request_data, Logout request_data tt w = rejected) ∧
  (∀ fuel request_data, CreateDocument fuel request_data tt w = rejected) ∧
  (∀ request_data id, GetDocument request_data id w = rejected) ∧
  (∀ request_data id, SaveDocument request_data id w = rejected) ∧
  (∀ request_data id, DeleteDocument request_data id w = rejected).

(** The response of the gate that applies first to a document request
    whose text is not accepted. *)
Definition gate_response (w : World User Fields Store Users Rng) : dict :=
  match current_user w with
  | Some _ => _INVALID_REQUEST_RESPONSE
  | None => _NOT_AUTHENTICATED_RESPONSE
  end.

End Vocabulary.

(** ** The URL map

    The rules that the [@app.route] decorators of the module register, in
    the order they register them, and the two operations of Flask that
    read them: matching a request against the rules and building the URL
    of an endpoint.  The rule that Flask adds for static files is not
    part of the table. *)

Module Routing.

Inductive segment : Type :=
  | Lit (text : string)    (* a fixed part of the rule *)
  | Var (name : string).   (* <name>: the default (string) converter *)

Record rule : Type := mkRule {
  rule_segments : list segment;
  rule_methods : list string;
  rule_endpoint : string;
}.

(** What a match finds: the endpoint and the values of its variables,
    or one of the two routing errors (405, 404). *)
Inductive match_result : Type :=
  | Found (endpoint : string) (values : list (string * string))
  | MethodNotAllowed
  | NotFound.

(** [s.split('/')]. *)
Fixpoint split_slash (s : string) : list string :=
  match s with
  | EmptyString => [EmptyString]
  | String c rest =>
      if Ascii.eqb c "/"%char then EmptyString :: split_slash rest
      else
        match split_slash rest with
        | first :: others => String c first :: others
        | [] => [String c EmptyString]
        end
  end.

(** [s.lstrip('/')]. *)
Fixpoint lstrip_slash (s : string) : string :=
  match s with
  | EmptyString => EmptyString
  | String c rest => if Ascii.eqb c "/"%char then lstrip_slash rest else s
  end.

(** The parts of a path between its slashes; the root path has none. *)
Definition path_segments (path : string) : list string :=
  match lstrip_slash path with
  | EmptyString => []
  | relative => split_slash relative
  end.

(** [s] without a final ">", when it has one. *)
Fixpoint variable_name (s : string) : option string :=
  match s with
  | EmptyString => None
  | String c EmptyString =>
      if Ascii.eqb c ">"%char then Some EmptyString else None
  | String c rest => String c <$> variable_name rest
  end.

Definition parse_segment (s : string) : segment :=
  match s with
  | String c rest =>
      if Ascii.eqb c "<"%char then
        match variable_name rest with
        | Some name => Var name
        | None => Lit s
        end
      else Lit s
  | EmptyString => Lit s
  end.

Fixpoint has_method (method : string) (methods : list string) : bool :=
  match methods with
  | [] => false
  | m :: methods' => String.eqb m method || has_method method methods'
  end.

(** [@app.route(rule, methods=...)] on a view function named [endpoint]:
    the methods default to GET, HEAD comes with GET, and OPTIONS is
    always added. *)
Definition route (rule_string : string) (methods : option (list string))
    (endpoint : string) : rule :=
  let declared := default ["GET"] methods in
  {| rule_segments := parse_segment <$> path_segments rule_string;
     rule_methods :=
       declared ++ (if has_method "GET" declared then ["HEAD"] else [])
                ++ ["OPTIONS"];
     rule_endpoint := endpoint |}.

Definition url_map : list rule := [
  route "/" None "RenderRoot";
  route "/scratch" None "RenderScratchEditor";
  route "/d/<document_id>" None "RenderEditorForDocument";
  route "/home" None "RenderDocumentList";
  route "/sitemap.xml" None "RenderSitemap";
  route "/api/v1/asciidoc-to-html" (Some ["POST"]) "AsciiDocToHtml";
  route "/api/v1/auth" (Some ["POST"]) "Auth";
  route "/api/v1/logout" (Some ["POST"]) "Logout";
  route "/api/v1/documents" (Some ["PUT"]) "CreateDocument";
  route "/api/v1/documents/<document_id>" (Some ["POST"]) "GetDocument";
  route "/api/v1/documents/<document_id>" (Some ["POST"]) "SaveDocument";
  route "/api/v1/documents/<document_id>" (Some ["DELETE"]) "DeleteDocument"
].

(** A rule against the parts of a path: a fixed part must be equal, a
    variable takes any part that is not empty. *)
Fixpoint match_segments (pattern : list segment) (parts : list string)
  : option (list (string * string)) :=
  match pattern, parts with
  | [], [] => Some []
  | Lit text :: pattern', part :: parts' =>
      if String.eqb text part then match_segments pattern' parts' else None
  | Var name :: pattern', part :: parts' =>
      match part with
      | EmptyString => None
      | _ => cons (name, part) <$> match_segments pattern' parts'
      end
  | _, _ => None
  end.

(** The first rule, in the order of [rules], that matches the path and
    allows the method; [allowed_elsewhere] records that some rule matched
    the path under another method. *)
Fixpoint match_rules (rules : list rule) (method : string)
    (parts : list string) (allowed_elsewhere : bool) : match_result :=
  match rules with
  | [] => if allowed_elsewhere then MethodNotAllowed else NotFound
  | r :: rules' =>
      match match_segments (rule_segments r) parts with
      | None => match_rules rules' method parts allowed_elsewhere
      | Some values =>
          if has_method method (rule_methods r)
          then Found (rule_endpoint r) values
          else match_rules rules' method parts true
      end
  end.

(** Matching a request. Werkzeug tries the rules sorted by weight, rules
    of equal weight in the order they were added. *)
Definition url_match (method path : string) : match_result :=
  match_rules url_map method (path_segments path) false.

Fixpoint literal_parts (pattern : list segment) : option (list string) :=
  match pattern with
  | [] => Some []
  | Lit text :: pattern' => cons text <$> literal_parts pattern'
  | Var _ :: _ => None
  end.

Fixpoint join_slash (parts : list string) : string :=
  match parts with
  | [] => EmptyString
  | [part] => part
  | part :: parts' => part ++ "/" ++ join_slash parts'
  end.

Fixpoint build_rules (rules : list rule) (endpoint : string)
  : outcome string :=
  match rules with
  | [] => Raise (OtherError "BuildError")
  | r :: rules' =>
      if String.eqb (rule_endpoint r) endpoint then
        match literal_parts (rule_segments r) with
        | Some parts => Return ("/" ++ join_slash parts)
        | None => build_rules rules' endpoint
        end
      else build_rules rules' endpoint
  end.

(** [flask.url_for(endpoint)] without values, outside a blueprint: a
    leading dot is dropped, and the URL is built from the first rule of
    the endpoint that has no variable. *)
Definition url_for (endpoint : string) : outcome string :=
  build_rules url_map
    match endpoint with
    | String c rest => if Ascii.eqb c "."%char then rest else endpoint
    | EmptyString => endpoint
    end.

End Routing.

(** ** The pages

    The view functions that answer with HTML: they render a template, or
    redirect, or are refused by [login_required].  [flask.request.args],
    the query string of the request, is an argument of the view. *)

Section Pages.

Context {User Fields Store Users Rng : Type}.
Context `{!Collaborators User Fields Store Users Rng}.

(** A value handed to a template. *)
Inductive template_value : Type :=
  | TUser (u : option User)                      (* login.current_user *)
  | TDocument (d : option (Document User Fields)) (* a document, or None *)
  | TDocuments (ds : list (Document User Fields))
  | TText (s : string).

(** What the pages call but the module does not define: Flask's
    [render_template] on the templates of the application, the characters
    that [strip()] takes for whitespace, and [GetOwnedDocuments] of the
    user model. *)
Class PageCollaborators : Type := {
  render_template : string -> gmap string template_value -> string;
  isspace : ascii -> bool;
  GetOwnedDocuments : User -> Store -> list (Document User Fields);
}.

Context `{!PageCollaborators}.

(** The handler monad at the types of the section. *)
#[local] Abbreviation Mw := (@M User Fields Store Users Rng).

(** What a page view returns. *)
Inductive page : Type :=
  | Html (body : string)           (* a rendered template *)
  | Redirect (location : string)   (* flask.redirect(location) *)
  | Unauthorized.                  (* login_manager.unauthorized() *)

(** [s.lstrip()]. *)
Fixpoint lstrip (s : string) : string :=
  match s with
  | EmptyString => EmptyString
  | String c rest => if isspace c then lstrip rest else s
  end.

(** [s.rstrip()]. *)
Fixpoint rstrip (s : string) : string :=
  match s with
  | EmptyString => EmptyString
  | String c rest =>
      match rstrip rest with
      | EmptyString =>
          if isspace c then EmptyString else String c EmptyString
      | kept => String c kept
      end
  end.

(** [s.strip()]. *)
Definition strip (s : string) : string := rstrip (lstrip s).

(** [key in flask.request.args]. *)
Definition in_args (key : string) (args : gmap string (list string))
  : bool :=
  bool_decide (is_Some (args !! key)).

(** The arguments [_RenderTemplate] hands to the template: the current
    user, updated with the extra arguments when there are any. *)
Definition template_args (user : option User)
    (extra_args : option (gmap string template_value))
  : gmap string template_value :=
  let args : gmap string template_value := {[ "user" := TUser user ]} in
  match extra_args with
  | Some extra =>
      if negb (Nat.eqb (size extra) 0) then extra ∪ args else args
  | None => args
  end.

Definition _RenderTemplate (template : string)
    (extra_args : option (gmap string template_value)) : Mw string :=
  user ← get_current_user;
  mret (strip (render_template template (template_args user extra_args))).

(** [flask.redirect(flask.url_for(endpoint))]. *)
Definition redirect_to (endpoint : string) : Mw page :=
  location ← py (Routing.url_for endpoint);
  mret (Redirect location).

(** [login.login_required] (with [LOGIN_DISABLED] off). *)
Definition login_required {Args : Type}
    (func : gmap string (list string) -> Args -> Mw page)
    (args : gmap string (list string)) (view_args : Args) : Mw page :=
  authenticated ← is_authenticated;
  if negb authenticated then mret Unauthorized
  else func args view_args.

Definition RenderRoot (args : gmap string (list string)) (_ : unit)
  : Mw page :=
  if in_args "_escaped_fragment_" args then
    (* Static version for search engine crawlers. *)
    body ← _RenderTemplate "static.html" None;
    mret (Html body)
  else
    authenticated ← is_authenticated;
    if (authenticated : bool) then redirect_to ".RenderDocumentList"
    else redirect_to ".RenderScratchEditor".

Definition editor_template (args : gmap string (list string)) : string :=
  if in_args "header" args then "editor_header.html" else "editor.html".

Definition RenderScratchEditor (args : gmap string (list string))
    (_ : unit) : Mw page :=
  default_text ←
    (if in_args "new" args then mret EmptyString
     else _RenderTemplate "intro.txt" None);
  let template := editor_template args in
  body ← _RenderTemplate template
            (Some {[ "document" := TDocument None;
                     "asciidoc_editor_text" := TText default_text ]});
  mret (Html body).

Definition RenderEditorForDocument_body (args : gmap string (list string))
    (id : string) : Mw page :=
  document ← call_Get id;
  match document with
  | None => redirect_to ".RenderRoot"
  | Some document =>
      readable ← call_IsReadableByUser document;
      if negb readable then redirect_to ".RenderRoot"
      else
        let template := editor_template args in
        body ← _RenderTemplate template
                  (Some {[ "document" := TDocument (Some document) ]});
        mret (Html body)
  end.

Definition RenderEditorForDocument
  : gmap string (list string) -> string -> Mw page :=
  login_required RenderEditorForDocument_body.

(** [login.current_user.GetOwnedDocuments()]: the anonymous user has no
    such method. *)
Definition call_GetOwnedDocuments : Mw (list (Document User Fields)) :=
  fun w =>
  match current_user w with
  | Some u => (Return (GetOwnedDocuments u (store w)), w)
  | None => (Raise AttributeError, w)
  end.

Definition RenderDocumentList_body (_ : gmap string (list string))
    (_ : unit) : Mw page :=
  documents ← call_GetOwnedDocuments;
  body ← _RenderTemplate "document_list.html"
            (Some {[ "documents" := TDocuments documents ]});
  mret (Html body).

Definition RenderDocumentList
  : gmap string (list string) -> unit -> Mw page :=
  login_required RenderDocumentList_body.

Definition RenderSitemap (_ : gmap string (list string)) (_ : unit)
  : Mw page :=
  body ← _RenderTemplate "sitemap.xml" None;
  mret (Html body).

End Pages.

Arguments template_value : clear implicits.
Arguments PageCollaborators : clear implicits.
Arguments page : clear implicits.

(** ** More instances to run the handlers on *)

Module Runs.

Import InMemory.

(** The in-memory store when it cannot be reached: every save raises. *)
Definition offline : Collaborators User Fields Store Users Rng := {|
  MAX_SOURCE_TEXT_SIZE := 8;
  GetAsciiDocResult := mem_GetAsciiDocResult;
  ACCOUNT_PROVIDERS := {[ "google" := good_token ]};
  FindOrCreateUser := mem_FindOrCreateUser;
  user_id := JStr;
  UserDocument_fields := {| persisted := false; content := JNull |};
  FromJson := mem_FromJson;
  toJson := mem_toJson;
  IsReadableByUser := mem_IsReadableByUser;
  IsWritableByUser := mem_IsWritableByUser;
  NewDocumentId := mem_NewDocumentId;
  Get := fun s id => s !! id;
  save := fun _ s => (Some (OtherError "connection refused"), s);
  delete := mem_delete;
|}.



(** Templates that print their name and the editor text between blanks. *)
Definition mem_render_template (template : string)
    (args : gmap string (template_value User Fields)) : string :=
  "  " ++ template ++ ": " ++
  match args !! "asciidoc_editor_text" with
  | Some (TText text) => text
  | _ => "-"
  end ++ " ".

Definition mem_isspace (c : ascii) : bool :=
  Ascii.eqb c " "%char || Ascii.eqb c "009"%char ||
  Ascii.eqb c "010"%char || Ascii.eqb c "013"%char.

Definition mem_GetOwnedDocuments (u : User) (s : Store) : list Doc :=
  filter (fun d => owner d = Some u) (map_to_list s).*2.

#[export] Instance pages : PageCollaborators User Fields Store := {|
  render_template := mem_render_template;
  isspace := mem_isspace;
  GetOwnedDocuments := mem_GetOwnedDocuments;
|}.

Definition no_args : gmap string (list string) := ∅.

Definition crawler_args : gmap string (list string) :=
  {[ "_escaped_fragment_" := [EmptyString] ]}.

(** Alice's own document "d2" with a text of the store's liking. *)
Definition save_request : json := text_request "new text".

(** The extra arguments of a page without a document. *)
Definition no_document : gmap string (template_value User Fields) :=
  {[ "document" := TDocument None ]}.

End Runs.

(** ** Vocabulary of the further properties *)

Section MoreVocabulary.

Context {User Fields Store Users Rng : Type}.
Context `{!Collaborators User Fields Store Users Rng}.

(** A value without a length: [len] raises [TypeError] on it. *)
Definition unsized (v : json) : bool :=
  match v with
  | JNull | JBool _ | JNum _ => true
  | _ => false
  end.

(** The requests on which the text gate raises: a body that is null, a
    boolean or a number; a string or a list that contains "text" (it
    cannot be indexed by a string); an object whose "text" has no
    length. *)
Definition ill_typed_text (request_data : json) : Prop :=
  match request_data with
  | JNull | JBool _ | JNum _ => True
  | JStr s => Py.str_contains "text" s = true
  | JList l => existsb (Py.is_str "text") l = true
  | JObj m => ∃ text, m !! "text" = Some text ∧ unsized text = true
  end.

(** The requests that the text gate refuses with the invalid-request
    response: no "text", or a "text" that is too long. *)
Definition refused_text (request_data : json) : Prop :=
  Py.contains "text" request_data = Return false ∨
  oversized_text request_data.

(** The requests that [Auth] refuses before it looks at any assertion:
    an object without "accounts", or whose "accounts" is not a list, or
    is the empty list. *)
Definition no_accounts (m : dict) : Prop :=
  m !! "accounts" = None ∨
  (∃ v, m !! "accounts" = Some v ∧ Py.is_list v = false) ∨
  m !! "accounts" = Some (JList []).




(** The document [CreateDocument] sets out to save, before it has an
    identifier. *)
Definition new_document (w : World User Fields Store Users Rng)
    (request_data : json) : Document User Fields :=
  FromJson (set_owner (current_user w) UserDocument) request_data.

(** The calls of the retry loop: asking for an identifier, and saving
    [base] under some identifier. *)
Definition create_call (base : Document User Fields)
    (c : Call User Fields) : Prop :=
  c = CallNewDocumentId ∨ ∃ id, c = CallSave (set_document_id id base).

(** [w'] has the session and the account table of [w]. *)
Definition same_accounts (w w' : World User Fields Store Users Rng)
  : Prop :=
  current_user w' = current_user w ∧ users w' = users w.

(** [w'] has the document store and the identifier source of [w]. *)
Definition same_documents (w w' : World User Fields Store Users Rng)
  : Prop :=
  store w' = store w ∧ rng w' = rng w.

End MoreVocabulary.

Section PageVocabulary.

Context {User Fields Store : Type}.
Context `{!PageCollaborators User Fields Store}.

(** Every character of [s] is whitespace. *)
Fixpoint all_space (s : string) : bool :=
  match s with
  | EmptyString => true
  | String c rest => isspace c && all_space rest
  end.

(** [s] begins with whitespace. *)
Definition starts_with_space (s : string) : bool :=
  match s with
  | EmptyString => false
  | String c _ => isspace c
  end.

(** [s] ends with whitespace. *)
Fixpoint ends_with_space (s : string) : bool :=
  match s with
  | EmptyString => false
  | String c EmptyString => isspace c
  | String _ rest => ends_with_space rest
  end.

End PageVocabulary.

(** A part of a path as a variable of a rule takes it: not empty and
    without a slash. *)
Fixpoint slash_free (s : string) : bool :=
  match s with
  | EmptyString => true
  | String c rest => negb (Ascii.eqb c "/"%char) && slash_free rest
  end.

Definition path_part (s : string) : bool :=
  negb (String.eqb s EmptyString) && slash_free s.

(** * Properties of the handlers *)

Section Properties.

Context {User Fields Store Users Rng : Type}.
Context `{!Collaborators User Fields Store Users Rng}.

Implicit Types (w : World User Fields Store Users Rng).
Implicit Types (request_data : json) (id : string).
Implicit Types (document : Document User Fields).

(** ** Running the monad *)

Lemma bind_run {A B} (c : M A) (k : A -> M B) w :
  (c ≫= k) w =
    match c w with
    | (Return a, w') => k a w'
    | (Raise e, w') => (Raise e, w')
    | (OutOfFuel, w') => (OutOfFuel, w')
    end.
Proof. reflexivity. Qed.

Lemma JsonView_run {Args} (view_function : json -> Args -> M dict)
    request_data (args : Args) w :
  _JsonView view_function request_data args w =
    match view_function request_data args w with
    | (Return response, w') => (Return (json_dumps response), w')
    | (Raise e, w') => (Raise e, w')
    | (OutOfFuel, w') => (OutOfFuel, w')
    end.
Proof. reflexivity. Qed.

(** ** The authentication gate *)

Lemma RequireAuth_anonymous {Args} (view_function : json -> Args -> M dict)
    request_data (args : Args) w :
  current_user w = None ->
  _RequireAuth view_function request_data args w =
    (Return _NOT_AUTHENTICATED_RESPONSE, w).
Proof.
  intros Hanon. unfold _RequireAuth. rewrite bind_run.
  unfold is_authenticated. rewrite Hanon.
  rewrite bool_decide_eq_false_2 by (intros [? ?]; discriminate).
  reflexivity.
Qed.

Lemma RequireAuth_authenticated {Args}
    (view_function : json -> Args -> M dict)
    request_data (args : Args) w (u : User) :
  current_user w = Some u ->
  _RequireAuth view_function request_data args w =
    view_function request_data args w.
Proof.
  intros Hu. unfold _RequireAuth. rewrite bind_run.
  unfold is_authenticated. rewrite Hu.
  rewrite bool_decide_eq_true_2 by eauto.
  reflexivity.
Qed.

(** ** The text gate *)

Lemma text_length_inv request_data n :
  text_length request_data = Return n ->
  ∃ (m : dict) (text : json),
    request_data = JObj m ∧ m !! "text" = Some text ∧
    Py.len text = Return n.
Proof.
  unfold text_length. destruct request_data as [| | | | |m]; try discriminate.
  simpl. destruct (m !! "text") as [text|] eqn:Hm; try discriminate.
  simpl. eauto.
Qed.

Lemma RequireText_oversized {Args} (view_function : json -> Args -> M dict)
    request_data (args : Args) w :
  oversized_text request_data ->
  _RequireText view_function request_data args w =
    (Return _INVALID_REQUEST_RESPONSE, w).
Proof.
  intros (n & Hn & Hmax).
  destruct (text_length_inv _ _ Hn) as (m & text & -> & Hm & Hlen).
  unfold _RequireText, py. rewrite !bind_run. simpl.
  rewrite bool_decide_eq_true_2 by (rewrite Hm; eauto). simpl.
  rewrite !bind_run. rewrite Hm, Hlen. rewrite bind_run.
  apply Z.ltb_lt in Hmax. rewrite Hmax. reflexivity.
Qed.

Lemma RequireText_valid {Args} (view_function : json -> Args -> M dict)
    request_data (args : Args) w :
  valid_text request_data ->
  _RequireText view_function request_data args w =
    view_function request_data args w.
Proof.
  intros (n & Hn & Hmax).
  destruct (text_length_inv _ _ Hn) as (m & text & -> & Hm & Hlen).
  unfold _RequireText, py. rewrite !bind_run. simpl.
  rewrite bool_decide_eq_true_2 by (rewrite Hm; eauto). simpl.
  rewrite !bind_run. rewrite Hm, Hlen. rewrite bind_run.
  apply Z.ltb_ge in Hmax. rewrite Hmax. reflexivity.
Qed.

Lemma RequireText_missing {Args} (view_function : json -> Args -> M dict)
    request_data (args : Args) w :
  Py.contains "text" request_data = Return false ->
  _RequireText view_function request_data args w =
    (Return _INVALID_REQUEST_RESPONSE, w).
Proof.
  intros Hno. unfold _RequireText, py. rewrite bind_run, Hno. reflexivity.
Qed.

(** ** The document handlers, run *)

Lemma GetDocument_body_run request_data id w :
  GetDocument_body request_data id w =
    match Get (store w) id with
    | None =>
        (Return _INVALID_DOCUMENT_ID_RESPONSE, logged (CallGet id) w)
    | Some document =>
        (Return (if IsReadableByUser document (current_user w)
                 then <[ "success" := JBool true ]> (toJson document)
                 else _NOT_AUTHENTICATED_RESPONSE),
         logged (CallIsReadableByUser document) (logged (CallGet id) w))
    end.
Proof.
  unfold GetDocument_body. rewrite bind_run. unfold call_Get.
  destruct (Get (store w) id) as [document|]; [|reflexivity].
  rewrite bind_run. unfold call_IsReadableByUser. simpl.
  destruct (IsReadableByUser document (current_user w)); reflexivity.
Qed.

Lemma DeleteDocument_body_run request_data id w :
  DeleteDocument_body request_data id w =
    match Get (store w) id with
    | None =>
        (Return _INVALID_DOCUMENT_ID_RESPONSE, logged (CallGet id) w)
    | Some document =>
        let w1 :=
          logged (CallIsWritableByUser document) (logged (CallGet id) w) in
        if IsWritableByUser document (current_user w)
        then (Return _SUCCESS_RESPONSE,
              with_store (delete document (store w))
                (logged (CallDelete document) w1))
        else (Return _NOT_AUTHENTICATED_RESPONSE, w1)
    end.
Proof.
  unfold DeleteDocument_body. rewrite bind_run. unfold call_Get.
  destruct (Get (store w) id) as [document|]; [|reflexivity].
  rewrite bind_run. unfold call_IsWritableByUser. simpl.
  destruct (IsWritableByUser document (current_user w)); reflexivity.
Qed.

Lemma SaveDocument_body_run request_data id w :
  SaveDocument_body request_data id w =
    match Get (store w) id with
    | None =>
        (Return _INVALID_DOCUMENT_ID_RESPONSE, logged (CallGet id) w)
    | Some document =>
        let w1 :=
          logged (CallIsWritableByUser document) (logged (CallGet id) w) in
        if IsWritableByUser document (current_user w)
        then
          let document' := FromJson document request_data in
          let w2 s := with_store s (logged (CallSave document') w1) in
          match save document' (store w) with
          | (None, s) => (Return _SUCCESS_RESPONSE, w2 s)
          | (Some ValidationError, s) =>
              (Return _INVALID_REQUEST_RESPONSE, w2 s)
          | (Some e, s) => (Raise e, w2 s)
          end
        else (Return _NOT_AUTHENTICATED_RESPONSE, w1)
    end.
Proof.
  unfold SaveDocument_body. rewrite bind_run. unfold call_Get.
  destruct (Get (store w) id) as [document|]; [|reflexivity].
  rewrite bind_run. unfold call_IsWritableByUser. simpl.
  destruct (IsWritableByUser document (current_user w)); [|reflexivity].
  simpl. unfold try_except. rewrite bind_run. unfold call_save. simpl.
  destruct (save (FromJson document request_data) (store w)) as [[e|] s];
    [destruct e|]; reflexivity.
Qed.

Lemma gated_handlers_reject_anonymous w :
  current_user w = None -> gated_handlers_reject w.
Proof.
  intros Hanon. unfold gated_handlers_reject.
  unfold Logout, CreateDocument, GetDocument, SaveDocument, DeleteDocument.
  repeat split; intros; rewrite JsonView_run;
    rewrite RequireAuth_anonymous by exact Hanon; reflexivity.
Qed.

(** C5.  A request to an endpoint behind the authentication gate
    ([Logout], [CreateDocument], [GetDocument], [SaveDocument],
    [DeleteDocument]) made while no user is logged in is answered with
    [_NOT_AUTHENTICATED_RESPONSE] and leaves the world, its call log
    included, untouched, whatever the wrapped view function is.  A
    [Logout] by a logged-in user succeeds and leaves a world in which
    this is the case. *)
Theorem C5_not_authenticated_gate w :
  (current_user w = None ->
     gated_handlers_reject w ∧
     ∀ (Args : Type) (view_function : json -> Args -> M dict)
       request_data (args : Args),
       _RequireAuth view_function request_data args w =
         (Return _NOT_AUTHENTICATED_RESPONSE, w)) ∧
  (∀ (u : User) request_data,
     current_user w = Some u ->
     let w' := with_current_user None (logged CallLogoutUser w) in
     Logout request_data tt w =
       (Return (json_dumps _SUCCESS_RESPONSE), w') ∧
     gated_handlers_reject w').
Proof.
  split.
  - intros Hanon. split.
    + apply gated_handlers_reject_anonymous, Hanon.
    + intros. apply RequireAuth_anonymous, Hanon.
  - intros u request_data Hu. simpl. split.
    + unfold Logout. rewrite JsonView_run.
      rewrite (RequireAuth_authenticated _ _ _ _ u) by exact Hu.
      reflexivity.
    + apply gated_handlers_reject_anonymous. reflexivity.
Qed.

(** C3 (as amended).  For a request whose "text" value is longer than
    [MAX_SOURCE_TEXT_SIZE], the text gate answers
    [_INVALID_REQUEST_RESPONSE] without calling the view function it
    wraps.  [AsciiDocToHtml] therefore always answers the invalid-request
    response; [CreateDocument] and [SaveDocument], whose authentication
    gate comes first, answer it when a user is logged in and answer
    [_NOT_AUTHENTICATED_RESPONSE] otherwise.  In every case the world is
    left untouched. *)
Theorem C3_oversized_text_rejected w request_data :
  oversized_text request_data ->
  (∀ (Args : Type) (view_function : json -> Args -> M dict) (args : Args),
     _RequireText view_function request_data args w =
       (Return _INVALID_REQUEST_RESPONSE, w)) ∧
  AsciiDocToHtml request_data tt w =
    (Return (json_dumps _INVALID_REQUEST_RESPONSE), w) ∧
  (∀ fuel, CreateDocument fuel request_data tt w =
             (Return (json_dumps (gate_response w)), w)) ∧
  (∀ id, SaveDocument request_data id w =
           (Return (json_dumps (gate_response w)), w)).
Proof.
  intros Hlong. split; [|split; [|split]].
  - intros. apply RequireText_oversized, Hlong.
  - unfold AsciiDocToHtml. rewrite JsonView_run.
    rewrite RequireText_oversized by exact Hlong. reflexivity.
  - intros fuel. unfold CreateDocument, gate_response.
    rewrite JsonView_run.
    destruct (current_user w) as [u|] eqn:Hu.
    + rewrite (RequireAuth_authenticated _ _ _ _ u) by exact Hu.
      rewrite RequireText_oversized by exact Hlong. reflexivity.
    + rewrite RequireAuth_anonymous by exact Hu. reflexivity.
  - intros id. unfold SaveDocument, gate_response.
    rewrite JsonView_run.
    destruct (current_user w) as [u|] eqn:Hu.
    + rewrite (RequireAuth_authenticated _ _ _ _ u) by exact Hu.
      rewrite RequireText_oversized by exact Hlong. reflexivity.
    + rewrite RequireAuth_anonymous by exact Hu. reflexivity.
Qed.

(** ** Telling the stock responses apart *)

Ltac by_error_message :=
  let Heq := fresh "Heq" in
  intros Heq; apply (f_equal error_message_of) in Heq;
  vm_compute in Heq; discriminate Heq.

Lemma invalid_document_id_is_not_not_authenticated :
  json_dumps _INVALID_DOCUMENT_ID_RESPONSE ≠
  json_dumps _NOT_AUTHENTICATED_RESPONSE.
Proof. by_error_message. Qed.


(** ** The shape of responses *)

Lemma failure_response_stock (msg : string) :
  failure_response
    (json_dumps {[ "success" := JBool false;
                   "error_message" := JStr msg ]}).
Proof. eexists _, msg. repeat split. Qed.




(** ** Document requests of a logged-in user *)

Lemma GetDocument_authenticated w (u : User) request_data id :
  current_user w = Some u ->
  GetDocument request_data id w =
    _JsonView GetDocument_body request_data id w.
Proof.
  intros Hu. unfold GetDocument. rewrite !JsonView_run.
  rewrite (RequireAuth_authenticated _ _ _ _ u) by exact Hu. reflexivity.
Qed.

Lemma DeleteDocument_authenticated w (u : User) request_data id :
  current_user w = Some u ->
  DeleteDocument request_data id w =
    _JsonView DeleteDocument_body request_data id w.
Proof.
  intros Hu. unfold DeleteDocument. rewrite !JsonView_run.
  rewrite (RequireAuth_authenticated _ _ _ _ u) by exact Hu. reflexivity.
Qed.

Lemma SaveDocument_authenticated w (u : User) request_data id :
  current_user w = Some u ->
  SaveDocument request_data id w =
    _JsonView (_RequireText SaveDocument_body) request_data id w.
Proof.
  intros Hu. unfold SaveDocument. rewrite !JsonView_run.
  rewrite (RequireAuth_authenticated _ _ _ _ u) by exact Hu. reflexivity.
Qed.

Lemma SaveDocument_valid_text w (u : User) request_data id :
  current_user w = Some u -> valid_text request_data ->
  SaveDocument request_data id w =
    _JsonView SaveDocument_body request_data id w.
Proof.
  intros Hu Htext. rewrite (SaveDocument_authenticated _ u) by exact Hu.
  rewrite !JsonView_run. rewrite RequireText_valid by exact Htext.
  reflexivity.
Qed.

Lemma SaveDocument_text_refused w (u : User) request_data id :
  current_user w = Some u ->
  Py.contains "text" request_data = Return false ∨
    oversized_text request_data ->
  SaveDocument request_data id w =
    (Return (json_dumps _INVALID_REQUEST_RESPONSE), w).
Proof.
  intros Hu Hbad. rewrite (SaveDocument_authenticated _ u) by exact Hu.
  rewrite JsonView_run. destruct Hbad as [Hno | Hlong].
  - rewrite RequireText_missing by exact Hno. reflexivity.
  - rewrite RequireText_oversized by exact Hlong. reflexivity.
Qed.

(** The three handlers on an identifier the store does not know, past
    the gates: the lookup is the only call made. *)
Lemma missing_document_past_gates w (u : User) id :
  current_user w = Some u -> Get (store w) id = None ->
  let missing :=
    (Return (json_dumps _INVALID_DOCUMENT_ID_RESPONSE),
     logged (CallGet id) w) in
  (∀ request_data, GetDocument request_data id w = missing) ∧
  (∀ request_data, DeleteDocument request_data id w = missing) ∧
  (∀ request_data, valid_text request_data ->
                   SaveDocument request_data id w = missing).
Proof.
  intros Hu Hnone. simpl. repeat split.
  - intros. rewrite (GetDocument_authenticated _ u) by exact Hu.
    rewrite JsonView_run, GetDocument_body_run, Hnone. reflexivity.
  - intros. rewrite (DeleteDocument_authenticated _ u) by exact Hu.
    rewrite JsonView_run, DeleteDocument_body_run, Hnone. reflexivity.
  - intros request_data Htext.
    rewrite (SaveDocument_valid_text _ u) by assumption.
    rewrite JsonView_run, SaveDocument_body_run, Hnone. reflexivity.
Qed.

(** C7 (as amended).  For a logged-in user and a document identifier
    that the store lookup does not find, [GetDocument] and
    [DeleteDocument] answer [_INVALID_DOCUMENT_ID_RESPONSE] for every
    request, and [SaveDocument] answers it for every request whose text
    is accepted by the text gate; a [SaveDocument] request whose text is
    absent or too long is answered [_INVALID_REQUEST_RESPONSE] before
    the store is consulted. *)
Theorem C7_unknown_document_id w (u : User) id :
  current_user w = Some u ->
  Get (store w) id = None ->
  let missing :=
    (Return (json_dumps _INVALID_DOCUMENT_ID_RESPONSE),
     logged (CallGet id) w) in
  (∀ request_data, GetDocument request_data id w = missing) ∧
  (∀ request_data, DeleteDocument request_data id w = missing) ∧
  (∀ request_data, valid_text request_data ->
                   SaveDocument request_data id w = missing) ∧
  (∀ request_data,
     Py.contains "text" request_data = Return false ∨
       oversized_text request_data ->
     SaveDocument request_data id w =
       (Return (json_dumps _INVALID_REQUEST_RESPONSE), w)).
Proof.
  intros Hu Hnone.
  destruct (missing_document_past_gates w u id Hu Hnone) as (HG & HD & HS).
  simpl. repeat split; try assumption.
  intros request_data Hbad. apply (SaveDocument_text_refused _ u); assumption.
Qed.

(** C9 (as amended).  In [GetDocument], [DeleteDocument] and, for a
    request whose text is accepted by the text gate, [SaveDocument], the
    existence check comes before the permission check: for every
    logged-in user an unknown identifier is answered
    [_INVALID_DOCUMENT_ID_RESPONSE] after the lookup alone, and an
    existing document that the user may not read (may not write) is
    answered [_NOT_AUTHENTICATED_RESPONSE] after the lookup and the
    permission check.  The two answers differ, so they tell a logged-in
    user whether the identifier exists. *)
Theorem C9_existence_before_permission w (u : User) id :
  current_user w = Some u ->
  (Get (store w) id = None ->
     let missing :=
       (Return (json_dumps _INVALID_DOCUMENT_ID_RESPONSE),
        logged (CallGet id) w) in
     (∀ request_data, GetDocument request_data id w = missing) ∧
     (∀ request_data, DeleteDocument request_data id w = missing) ∧
     (∀ request_data, valid_text request_data ->
                      SaveDocument request_data id w = missing)) ∧
  (∀ document,
     Get (store w) id = Some document ->
     let denied check :=
       (Return (json_dumps _NOT_AUTHENTICATED_RESPONSE),
        logged check (logged (CallGet id) w)) in
     (IsReadableByUser document (Some u) = false ->
        ∀ request_data,
          GetDocument request_data id w =
            denied (CallIsReadableByUser document)) ∧
     (IsWritableByUser document (Some u) = false ->
        (∀ request_data,
           DeleteDocument request_data id w =
             denied (CallIsWritableByUser document)) ∧
        (∀ request_data, valid_text request_data ->
           SaveDocument request_data id w =
             denied (CallIsWritableByUser document)))) ∧
  json_dumps _INVALID_DOCUMENT_ID_RESPONSE ≠
    json_dumps _NOT_AUTHENTICATED_RESPONSE.
Proof.
  intros Hu. split; [|split].
  - intros Hnone. apply (missing_document_past_gates w u id Hu Hnone).
  - intros document Hsome. simpl. split.
    + intros Hread request_data.
      rewrite (GetDocument_authenticated _ u) by exact Hu.
      rewrite JsonView_run, GetDocument_body_run, Hsome, Hu, Hread.
      reflexivity.
    + intros Hwrite. split.
      * intros request_data.
        rewrite (DeleteDocument_authenticated _ u) by exact Hu.
        rewrite JsonView_run, DeleteDocument_body_run, Hsome. simpl.
        rewrite Hu, Hwrite. reflexivity.
      * intros request_data Htext.
        rewrite (SaveDocument_valid_text _ u) by assumption.
        rewrite JsonView_run, SaveDocument_body_run, Hsome. simpl.
        rewrite Hu, Hwrite. reflexivity.
  - apply invalid_document_id_is_not_not_authenticated.
Qed.

(** ** What the text gate can do *)

Lemma RequireText_cases {Args} (view_function : json -> Args -> M dict)
    request_data (args : Args) w :
  _RequireText view_function request_data args w =
      (Return _INVALID_REQUEST_RESPONSE, w) ∨
  (∃ e, _RequireText view_function request_data args w = (Raise e, w)) ∨
  (valid_text request_data ∧
   _RequireText view_function request_data args w =
     view_function request_data args w).
Proof.
  destruct request_data as [| | |s|l|m].
  - right; left; eexists; reflexivity.
  - right; left; eexists; reflexivity.
  - right; left; eexists; reflexivity.
  - unfold _RequireText, py. rewrite bind_run. simpl.
    destruct (Py.str_contains "text" s); simpl.
    + right; left; eexists; reflexivity.
    + left; reflexivity.
  - unfold _RequireText, py. rewrite bind_run. simpl.
    destruct (existsb (Py.is_str "text") l); simpl.
    + right; left; eexists; reflexivity.
    + left; reflexivity.
  - destruct (m !! "text") as [text|] eqn:Hm.
    + destruct (Py.len text) as [n| e |] eqn:Hlen.
      * destruct (Z.ltb_spec MAX_SOURCE_TEXT_SIZE (Z.of_nat n)) as [Hlt|Hle].
        -- left. apply RequireText_oversized. exists n. split; [|exact Hlt].
           unfold text_length. simpl. rewrite Hm. exact Hlen.
        -- right; right.
           assert (Hvalid : valid_text (JObj m)).
           { exists n. split; [|exact Hle].
             unfold text_length. simpl. rewrite Hm. exact Hlen. }
           split; [exact Hvalid|]. apply RequireText_valid, Hvalid.
      * right; left. exists e.
        unfold _RequireText, py. rewrite bind_run. simpl.
        rewrite bool_decide_eq_true_2 by (rewrite Hm; eauto). simpl.
        rewrite bind_run, Hm, bind_run, Hlen. reflexivity.
      * destruct text; discriminate.
    + left. apply RequireText_missing. simpl.
      rewrite bool_decide_eq_false_2; [reflexivity|].
      rewrite Hm. intros [? ?]; discriminate.
Qed.

Lemma text_sorts request_data :
  valid_text request_data ∨ refused_text request_data ∨
  ill_typed_text request_data.
Proof.
  destruct request_data as [| | |s|l|m]; simpl.
  - right; right; exact I.
  - right; right; exact I.
  - right; right; exact I.
  - destruct (Py.str_contains "text" s) eqn:Hin.
    + right; right; reflexivity.
    + right; left; left. simpl. rewrite Hin. reflexivity.
  - destruct (existsb (Py.is_str "text") l) eqn:Hin.
    + right; right; reflexivity.
    + right; left; left. simpl. rewrite Hin. reflexivity.
  - destruct (m !! "text") as [text|] eqn:Hm.
    + destruct (Py.len text) as [n| e |] eqn:Hlen.
      * assert (Hn : text_length (JObj m) = Return n).
        { unfold text_length. simpl. rewrite Hm. exact Hlen. }
        destruct (Z.ltb_spec MAX_SOURCE_TEXT_SIZE (Z.of_nat n)).
        -- right; left; right. exists n. split; assumption.
        -- left. exists n. split; assumption.
      * right; right. exists text. split; [reflexivity|].
        destruct text; try discriminate Hlen; reflexivity.
      * destruct text; discriminate Hlen.
    + right; left; left. simpl.
      rewrite bool_decide_eq_false_2; [reflexivity|].
      rewrite Hm. intros [? ?]; discriminate.
Qed.

(** ** The call log *)

Lemma new_calls_none w : new_calls w w = [].
Proof. unfold new_calls. apply drop_all. Qed.

Lemma new_calls_two w (c1 c2 : Call User Fields) :
  new_calls w (logged c2 (logged c1 w)) = [c1; c2].
Proof.
  unfold new_calls. simpl. rewrite <- app_assoc. apply drop_app_length.
Qed.

(** [SaveDocument] on a document the user may not write: no write is
    made, whatever the request. *)
Lemma SaveDocument_not_writable w (u : User) id document request_data :
  current_user w = Some u ->
  Get (store w) id = Some document ->
  IsWritableByUser document (Some u) = false ->
  store (SaveDocument request_data id w).2 = store w ∧
  forallb (fun c => negb (is_write c))
    (new_calls w (SaveDocument request_data id w).2) = true ∧
  (∀ body w', SaveDocument request_data id w = (Return body, w') ->
              failure_response body) ∧
  (valid_text request_data ->
   SaveDocument request_data id w =
     (Return (json_dumps _NOT_AUTHENTICATED_RESPONSE),
      logged (CallIsWritableByUser document) (logged (CallGet id) w))).
Proof.
  intros Hu Hsome Hwrite.
  assert (Hpast :
    _JsonView SaveDocument_body request_data id w =
      (Return (json_dumps _NOT_AUTHENTICATED_RESPONSE),
       logged (CallIsWritableByUser document) (logged (CallGet id) w))).
  { rewrite JsonView_run, SaveDocument_body_run, Hsome. simpl.
    rewrite Hu, Hwrite. reflexivity. }
  rewrite (SaveDocument_authenticated _ u) by exact Hu.
  rewrite JsonView_run.
  destruct (RequireText_cases SaveDocument_body request_data id w)
    as [Hgate | [[e Hgate] | [Hvalid Hgate]]]; rewrite Hgate.
  - simpl. rewrite new_calls_none. split; [reflexivity|].
    split; [reflexivity|]. split.
    + intros body w' [= <- _]. apply failure_response_stock.
    + intros Hvalid. rewrite RequireText_valid in Hgate by exact Hvalid.
      rewrite JsonView_run, Hgate in Hpast. exact Hpast.
  - simpl. rewrite new_calls_none. split; [reflexivity|].
    split; [reflexivity|]. split.
    + intros body w' [=].
    + intros Hvalid. rewrite RequireText_valid in Hgate by exact Hvalid.
      rewrite JsonView_run, Hgate in Hpast. discriminate Hpast.
  - rewrite JsonView_run in Hpast. rewrite Hpast. simpl.
    rewrite new_calls_two. split; [reflexivity|].
    split; [reflexivity|]. split.
    + intros body w' [= <- _]. apply failure_response_stock.
    + intros _. reflexivity.
Qed.

(** C2.  For a logged-in user and an existing document: [GetDocument]
    returns the document (its JSON with "success" set) exactly when
    [IsReadableByUser] holds for the current user and answers
    [_NOT_AUTHENTICATED_RESPONSE] otherwise; [DeleteDocument] deletes
    exactly when [IsWritableByUser] holds and answers
    [_NOT_AUTHENTICATED_RESPONSE], with the store as it was, otherwise;
    [SaveDocument] calls [save] only if [IsWritableByUser] holds, and
    when it does not hold the store is left as it was, whatever the
    handler returns is a failure response, and the permission check,
    once the text gate is passed, answers
    [_NOT_AUTHENTICATED_RESPONSE]. *)
Theorem C2_permission_checks w (u : User) id document :
  current_user w = Some u ->
  Get (store w) id = Some document ->
  let checked check := logged check (logged (CallGet id) w) in
  (∀ request_data,
     GetDocument request_data id w =
       (Return (json_dumps
                  (if IsReadableByUser document (Some u)
                   then <[ "success" := JBool true ]> (toJson document)
                   else _NOT_AUTHENTICATED_RESPONSE)),
        checked (CallIsReadableByUser document))) ∧
  (∀ request_data,
     DeleteDocument request_data id w =
       if IsWritableByUser document (Some u)
       then (Return (json_dumps _SUCCESS_RESPONSE),
             with_store (delete document (store w))
               (logged (CallDelete document)
                  (checked (CallIsWritableByUser document))))
       else (Return (json_dumps _NOT_AUTHENTICATED_RESPONSE),
             checked (CallIsWritableByUser document))) ∧
  (∀ request_data d,
     CallSave d ∈ new_calls w (SaveDocument request_data id w).2 ->
     IsWritableByUser document (Some u) = true) ∧
  (IsWritableByUser document (Some u) = false ->
   ∀ request_data,
     store (SaveDocument request_data id w).2 = store w ∧
     (∀ body w', SaveDocument request_data id w = (Return body, w') ->
                 failure_response body) ∧
     (valid_text request_data ->
      SaveDocument request_data id w =
        (Return (json_dumps _NOT_AUTHENTICATED_RESPONSE),
         checked (CallIsWritableByUser document)))).
Proof.
  intros Hu Hsome. simpl. split; [|split; [|split]].
  - intros request_data.
    rewrite (GetDocument_authenticated _ u) by exact Hu.
    rewrite JsonView_run, GetDocument_body_run, Hsome, Hu.
    reflexivity.
  - intros request_data.
    rewrite (DeleteDocument_authenticated _ u) by exact Hu.
    rewrite JsonView_run, DeleteDocument_body_run, Hsome. simpl.
    rewrite Hu. destruct (IsWritableByUser document (Some u)); reflexivity.
  - intros request_data d Hin.
    destruct (IsWritableByUser document (Some u)) eqn:Hwrite; [reflexivity|].
    destruct (SaveDocument_not_writable w u id document request_data
                Hu Hsome Hwrite) as (_ & Hnone & _ & _).
    rewrite forallb_forall in Hnone.
    apply list_elem_of_In, Hnone in Hin. discriminate Hin.
  - intros Hwrite request_data.
    destruct (SaveDocument_not_writable w u id document request_data
                Hu Hsome Hwrite) as (Hstore & _ & Hfailure & Hdenied).
    repeat split; assumption.
Qed.


Lemma only_logged_nil w : only_logged [] w w.
Proof. unfold only_logged. destruct w; simpl. rewrite app_nil_r. reflexivity. Qed.



(** ** The renderer *)

(** C6 (as amended).  For every request whose "text" value is accepted
    by the text gate (present, with a length of at most
    [MAX_SOURCE_TEXT_SIZE]), [AsciiDocToHtml] calls the renderer once on
    that value and reports its results verbatim: "success" is true
    exactly when the exit status is 0, "html" is the captured standard
    output and "error_message" the captured standard error. *)
Theorem C6_renderer_reported_verbatim w request_data text :
  Py.getitem request_data "text" = Return text ->
  valid_text request_data ->
  ∃ response : dict,
    AsciiDocToHtml request_data tt w =
      (Return (json_dumps response),
       logged (CallGetAsciiDocResult text) w) ∧
    let '(return_code, stdout_output, stderr_output) :=
      GetAsciiDocResult text in
    response !! "success" = Some (JBool (return_code =? 0)) ∧
    (response !! "success" = Some (JBool true) ↔ return_code = 0) ∧
    response !! "html" = Some (JStr stdout_output) ∧
    response !! "error_message" = Some (JStr stderr_output).
Proof.
  intros Htext Hvalid.
  unfold AsciiDocToHtml. rewrite JsonView_run.
  rewrite RequireText_valid by exact Hvalid.
  unfold AsciiDocToHtml_body, py. rewrite bind_run, Htext, bind_run.
  unfold call_GetAsciiDocResult.
  destruct (GetAsciiDocResult text) as [[return_code stdout_output]
                                          stderr_output].
  eexists. split; [reflexivity|].
  assert (Hsuccess :
    ({[ "success" := JBool (return_code =? 0);
        "html" := JStr stdout_output;
        "error_message" := JStr stderr_output ]} : dict) !! "success"
    = Some (JBool (return_code =? 0))) by reflexivity.
  split; [exact Hsuccess|]. split; [|split; reflexivity].
  rewrite Hsuccess. split.
  - intros Hok. injection Hok as Hok. apply Z.eqb_eq, Hok.
  - intros ->. reflexivity.
Qed.

(** ** Creating a document *)

Lemma CreateDocument_try_save_run document w :
  CreateDocument_try_save document w =
    match call_save document w with
    | (Return _, w') => (Return LoopBreak, w')
    | (Raise NotUniqueError, w') => (Return LoopContinue, w')
    | (Raise ValidationError, w') =>
        (Return (LoopReturn _INVALID_REQUEST_RESPONSE), w')
    | (Raise e, w') => (Raise e, w')
    | (OutOfFuel, w') => (OutOfFuel, w')
    end.
Proof.
  unfold CreateDocument_try_save, try_except. rewrite bind_run.
  destruct (call_save document w) as [[[] | e |] w']; try reflexivity.
  destruct e; reflexivity.
Qed.

Lemma CreateDocument_while_S fuel document w :
  CreateDocument_while (S fuel) document w =
    match call_NewDocumentId w with
    | (Return id, w1) =>
        let document' := set_document_id id document in
        match CreateDocument_try_save document' w1 with
        | (Return LoopContinue, w2) =>
            CreateDocument_while fuel document' w2
        | (Return (LoopReturn response), w2) => (Return (inl response), w2)
        | (Return LoopBreak, w2) => (Return (inr document'), w2)
        | (Raise e, w2) => (Raise e, w2)
        | (OutOfFuel, w2) => (OutOfFuel, w2)
        end
    | (Raise e, w1) => (Raise e, w1)
    | (OutOfFuel, w1) => (OutOfFuel, w1)
    end.
Proof.
  simpl. rewrite bind_run.
  destruct (call_NewDocumentId w) as [[id | e |] w1]; try reflexivity.
  rewrite bind_run.
  destruct (CreateDocument_try_save (set_document_id id document) w1)
    as [[[] | e |] w2]; reflexivity.
Qed.

(** Collisions use up one turn of the loop each and nothing else. *)
Lemma CreateDocument_while_collides n document w document' w' :
  collides n document w document' w' ->
  ∀ fuel,
    CreateDocument_while (n + fuel) document w =
      CreateDocument_while fuel document' w'.
Proof.
  induction 1 as [d w | n d w id w1 w2 d' w' Hid Hsave _ IH]; intros fuel.
  - reflexivity.
  - change (S n + fuel)%nat with (S (n + fuel)).
    rewrite CreateDocument_while_S, Hid. simpl.
    rewrite CreateDocument_try_save_run, Hsave. apply IH.
Qed.

(** C1.  For a logged-in user and a request whose text is accepted:
    if the saves of the first [n] generated identifiers each raise
    [NotUniqueError], the loop goes on to generate another identifier,
    and when the save of that one succeeds [CreateDocument] returns the
    success response carrying it; when that save raises
    [ValidationError] instead, [CreateDocument] returns
    [_INVALID_REQUEST_RESPONSE].  Any fuel above the number of
    collisions is enough, for every [n]. *)
Theorem C1_create_retries_until_saved w (u : User) request_data
    (n fuel : nat) document' w' id w1 w2 :
  current_user w = Some u ->
  valid_text request_data ->
  collides n (FromJson (set_owner (Some u) UserDocument) request_data) w
    document' w' ->
  call_NewDocumentId w' = (Return id, w1) ->
  (n < fuel)%nat ->
  (call_save (set_document_id id document') w1 = (Return tt, w2) ->
   CreateDocument fuel request_data tt w =
     (Return (json_dumps {[ "success" := JBool true;
                            "document_id" := JStr id ]}), w2)) ∧
  (call_save (set_document_id id document') w1
     = (Raise ValidationError, w2) ->
   CreateDocument fuel request_data tt w =
     (Return (json_dumps _INVALID_REQUEST_RESPONSE), w2)).
Proof.
  intros Hu Hvalid Hcollides Hid Hfuel.
  assert (Hrun : ∀ r,
    CreateDocument_while fuel
      (FromJson (set_owner (Some u) UserDocument) request_data) w = r ->
    CreateDocument fuel request_data tt w =
      match r with
      | (Return (inl response), w2) => (Return (json_dumps response), w2)
      | (Return (inr document), w2) =>
          (Return (json_dumps {[ "success" := JBool true;
                                 "document_id" := document_id document ]}),
           w2)
      | (Raise e, w2) => (Raise e, w2)
      | (OutOfFuel, w2) => (OutOfFuel, w2)
      end).
  { intros r <-. unfold CreateDocument. rewrite JsonView_run.
    rewrite (RequireAuth_authenticated _ _ _ _ u) by exact Hu.
    rewrite RequireText_valid by exact Hvalid.
    unfold CreateDocument_body. rewrite bind_run.
    unfold get_current_user. rewrite Hu. rewrite bind_run.
    destruct (CreateDocument_while fuel _ w) as [[[response|document]|e|] w3];
      reflexivity. }
  replace fuel with (n + S (fuel - S n))%nat in * by lia.
  split; intros Hsave; erewrite Hrun;
    try (rewrite (CreateDocument_while_collides _ _ _ _ _ Hcollides),
           CreateDocument_while_S, Hid; simpl;
         rewrite CreateDocument_try_save_run, Hsave; reflexivity);
    reflexivity.
Qed.

(** ** Authentication requests *)

Lemma py_bind_run {A B} (o : outcome A) (k : A -> M B) w :
  (py o ≫= k) w =
    match o with
    | Return a => k a w
    | Raise e => (Raise e, w)
    | OutOfFuel => (OutOfFuel, w)
    end.
Proof. rewrite bind_run. unfold py. destruct o; reflexivity. Qed.

Lemma only_logged_cons (c : Call User Fields) calls w w' :
  only_logged calls (logged c w) w' -> only_logged (c :: calls) w w'.
Proof.
  unfold only_logged. intros ->. simpl. rewrite <- app_assoc. reflexivity.
Qed.

Ltac py_step :=
  rewrite py_bind_run;
  match goal with
  | |- context [match ?o with Return _ => _ | Raise _ => _
                            | OutOfFuel => _ end] =>
      destruct o
  end.

(** The loop over the submitted accounts only asks providers about
    tokens, and when it leaves the handler it does so with one of the
    two failure responses. *)
Lemma Auth_for_spec remaining :
  ∀ accounts w o w',
    Auth_for remaining accounts w = (o, w') ->
    (∃ calls, only_logged calls w w' ∧
              forallb is_token_check calls = true) ∧
    (∀ response, o = Return (inl response) ->
       response = _INVALID_REQUEST_RESPONSE ∨
       response = invalid_token_response).
Proof.
  induction remaining as [|account_data remaining IH];
    intros accounts w o w' Hrun.
  - injection Hrun as <- <-. split.
    + exists []. split; [apply only_logged_nil | reflexivity].
    + intros response Hinl. discriminate Hinl.
  - assert (Hstop : ∀ (o0 : outcome (dict + list account)),
              (o0, w) = (o, w') ->
              (∀ response, o0 = Return (inl response) ->
                 response = _INVALID_REQUEST_RESPONSE ∨
                 response = invalid_token_response) ->
              (∃ calls, only_logged calls w w' ∧
                        forallb is_token_check calls = true) ∧
              (∀ response, o = Return (inl response) ->
                 response = _INVALID_REQUEST_RESPONSE ∨
                 response = invalid_token_response)).
    { intros o0 Heq Hresp. injection Heq as <- <-. split; [|exact Hresp].
      exists []. split; [apply only_logged_nil | reflexivity]. }
    simpl in Hrun. revert Hrun.
    py_step; [|intros H0; apply (Hstop _ H0); intros ? [=]..].
    match goal with |- context [if ?b then _ else _] => destruct b end.
    { intros H0. apply (Hstop _ H0). intros ? [= <-]. left; reflexivity. }
    py_step; [|intros H0; apply (Hstop _ H0); intros ? [=]..].
    py_step; [|intros H0; apply (Hstop _ H0); intros ? [=]..].
    py_step; [|intros H0; apply (Hstop _ H0); intros ? [=]..].
    py_step; [|intros H0; apply (Hstop _ H0); intros ? [=]..].
    rewrite bind_run. unfold call_IsTokenValid.
    match goal with |- context [if negb ?b then _ else _] => destruct b end;
      simpl.
    2:{ intros Hrun. injection Hrun as <- <-. split.
        - eexists [_]. split; [apply only_logged_cons, only_logged_nil|].
          reflexivity.
        - intros ? [= <-]. right; reflexivity. }
    py_step.
    2,3: intros Hrun; injection Hrun as <- <-; (split; [|intros ? [=]]);
      eexists [_]; (split; [apply only_logged_cons, only_logged_nil|]);
      reflexivity.
    intros Hrun. destruct (IH _ _ _ _ Hrun) as [(calls & Hlog & Hcalls) Hresp].
    split; [|exact Hresp].
    eexists (_ :: calls). split; [apply only_logged_cons, Hlog|].
    exact Hcalls.
Qed.

(** [Auth] is all or nothing: either it only asked providers about
    tokens -- no user was looked up, created or logged in -- and, if it
    returned, returned a failure response; or every submitted account
    was accepted, the user was found or created from them and logged
    in, and the success response carries that user's identifier. *)
Lemma Auth_all_or_nothing request_data w o w' :
  Auth request_data tt w = (o, w') ->
  (∃ calls, only_logged calls w w' ∧
            forallb is_token_check calls = true ∧
            ∀ body, o = Return body ->
              body = json_dumps _INVALID_REQUEST_RESPONSE ∨
              body = json_dumps invalid_token_response) ∨
  (∃ calls w1 accounts user us,
     only_logged calls w w1 ∧
     forallb is_token_check calls = true ∧
     FindOrCreateUser accounts (users w) = (user, us) ∧
     o = Return (json_dumps {[ "success" := JBool true;
                               "user_id" := user_id user ]}) ∧
     w' = with_current_user (Some user)
            (logged (CallLoginUser user)
               (with_users us
                  (logged (CallFindOrCreateUser accounts) w1)))).
Proof.
  assert (Hstop : ∀ (o0 : outcome json),
            (∀ body, o0 = Return body ->
               body = json_dumps _INVALID_REQUEST_RESPONSE ∨
               body = json_dumps invalid_token_response) ->
            (o0, w) = (o, w') ->
            ∃ calls, only_logged calls w w' ∧
              forallb is_token_check calls = true ∧
              ∀ body, o = Return body ->
                body = json_dumps _INVALID_REQUEST_RESPONSE ∨
                body = json_dumps invalid_token_response).
  { intros o0 Hresp Heq. injection Heq as <- <-.
    exists []. split; [apply only_logged_nil|]. split; [reflexivity|].
    exact Hresp. }
  unfold Auth. rewrite JsonView_run. unfold Auth_body.
  py_step; [|intros H0; left; (eapply Hstop; [|exact H0]); intros ? [=]..].
  match goal with |- context [if negb ?b then _ else _] => destruct b end;
    simpl.
  2:{ intros H0. left. eapply Hstop; [|exact H0].
      intros ? [= <-]. left; reflexivity. }
  py_step; [|intros H0; left; (eapply Hstop; [|exact H0]); intros ? [=]..].
  match goal with |- context [if ?b then _ else _] => destruct b end.
  { intros H0. left. eapply Hstop; [|exact H0].
    intros ? [= <-]. left; reflexivity. }
  py_step; [|intros H0; left; (eapply Hstop; [|exact H0]); intros ? [=]..].
  rewrite bind_run.
  match goal with |- context [Auth_for ?l ?acc ?w0] =>
    destruct (Auth_for l acc w0) as [o1 w1] eqn:Hfor end.
  destruct (Auth_for_spec _ _ _ _ _ Hfor) as [(calls & Hlog & Hcalls) Hresp].
  destruct o1 as [[response|accounts]|e|].
  - intros H0. injection H0 as <- <-. left.
    exists calls. split; [exact Hlog|]. split; [exact Hcalls|].
    intros body [= <-].
    destruct (Hresp response eq_refl) as [-> | ->]; [left|right]; reflexivity.
  - rewrite bind_run. unfold call_FindOrCreateUser.
    destruct (FindOrCreateUser accounts (users w1)) as [user us] eqn:Hfind.
    intros H0. injection H0 as <- <-. right.
    exists calls, w1, accounts, user, us.
    assert (Husers : users w1 = users w) by (rewrite Hlog; reflexivity).
    rewrite <- Husers. repeat split; assumption.
  - intros H0. injection H0 as <- <-. left.
    exists calls. repeat split; try assumption. intros ? [=].
  - intros H0. injection H0 as <- <-. left.
    exists calls. repeat split; try assumption. intros ? [=].
Qed.

(** ** [Auth] on lists of assertion objects *)

Lemma outcome_bind_run {A B} (o : outcome A) (k : A -> outcome B) :
  (o ≫= k) =
    match o with
    | Return a => k a
    | Raise e => Raise e
    | OutOfFuel => OutOfFuel
    end.
Proof. reflexivity. Qed.

(** The loop of [Auth] computes [scan]: its result does not depend on
    the world. *)
Lemma Auth_for_scan remaining :
  ∀ accounts w, (Auth_for remaining accounts w).1 = scan remaining accounts.
Proof.
  induction remaining as [|account_data remaining IH]; intros accounts w.
  - reflexivity.
  - simpl. unfold assess. rewrite py_bind_run, ?outcome_bind_run.
    destruct (Auth_rejects account_data) as [[]| |]; try reflexivity.
    rewrite py_bind_run, ?outcome_bind_run.
    destruct (Py.getitem account_data "account_provider_type")
      as [provider_type| |]; try reflexivity.
    rewrite py_bind_run, ?outcome_bind_run.
    destruct (Py.table_getitem ACCOUNT_PROVIDERS provider_type)
      as [account_provider| |]; try reflexivity.
    rewrite py_bind_run, ?outcome_bind_run.
    destruct (Py.getitem account_data "user_id") as [uid| |];
      try reflexivity.
    rewrite py_bind_run, ?outcome_bind_run.
    destruct (Py.getitem account_data "auth_token") as [auth_token| |];
      try reflexivity.
    rewrite bind_run. unfold call_IsTokenValid.
    destruct (account_provider uid auth_token); simpl; [|reflexivity].
    rewrite py_bind_run, ?outcome_bind_run.
    destruct (Py.getitem account_data "data") as [data| |];
      try reflexivity.
    apply IH.
Qed.

(** An assertion object is assessed without an exception. *)
Lemma assess_assertion_object account_data :
  assertion_object account_data -> ∃ v, assess account_data = Return v.
Proof.
  intros (m & data & -> & Hdata & Hhash).
  unfold assess, Auth_rejects, Py.get, Py.getitem.
  rewrite Hdata, ?outcome_bind_run.
  destruct (m !! "account_provider_type") as [provider_type|];
    simpl in *; [|eexists; reflexivity].
  destruct (Py.truthy provider_type) eqn:Htype; simpl;
    [|eexists; reflexivity].
  destruct (m !! "user_id") as [uid|]; simpl; [|eexists; reflexivity].
  destruct (Py.truthy uid); simpl; [|eexists; reflexivity].
  destruct (m !! "auth_token") as [auth_token|]; simpl;
    [|eexists; reflexivity].
  destruct (Py.truthy auth_token); simpl; [|eexists; reflexivity].
  destruct provider_type as [| | |s| |]; try discriminate Hhash; simpl;
    try (eexists; reflexivity).
  destruct (ACCOUNT_PROVIDERS !! s) as [account_provider|] eqn:Hprovider.
  - rewrite bool_decide_eq_true_2 by eauto. simpl.
    destruct (account_provider uid auth_token); simpl; eexists; reflexivity.
  - rewrite bool_decide_eq_false_2 by (intros [? ?]; discriminate). simpl.
    eexists; reflexivity.
Qed.

Lemma scan_all_accepted remaining (new : list account) :
  Forall2 accepted remaining new ->
  ∀ accounts, scan remaining accounts = Return (inr (accounts ++ new)%list).
Proof.
  induction 1 as [|account_data a remaining new Ha _ IH]; intros accounts.
  - simpl. rewrite app_nil_r. reflexivity.
  - simpl. rewrite Ha. simpl. rewrite IH, <- app_assoc. reflexivity.
Qed.

Lemma scan_some_refused remaining :
  Forall assertion_object remaining ->
  Exists refused remaining ->
  ∀ accounts,
    scan remaining accounts = Return (inl _INVALID_REQUEST_RESPONSE) ∨
    scan remaining accounts = Return (inl invalid_token_response).
Proof.
  induction 1 as [|account_data remaining Hobject _ IH];
    intros Hrefused accounts.
  - inversion Hrefused.
  - simpl. destruct (assess_assertion_object _ Hobject) as [v Hv].
    rewrite Hv. simpl. destruct v as [| |a]; [left | right |]; try reflexivity.
    apply IH. inversion Hrefused as [? ? [Hbad | Hbad] | ]; subst;
      [rewrite Hv in Hbad; discriminate Hbad ..| assumption].
Qed.

(** [Auth] on a request whose "accounts" is a non-empty list, in terms of
    the loop. *)
Lemma Auth_run (m : dict) (submitted : list json) w :
  m !! "accounts" = Some (JList submitted) ->
  submitted ≠ [] ->
  Auth (JObj m) tt w =
    match Auth_for submitted [] w with
    | (Return (inl response), w1) => (Return (json_dumps response), w1)
    | (Return (inr accounts), w1) =>
        let '(user, us) := FindOrCreateUser accounts (users w1) in
        (Return (json_dumps {[ "success" := JBool true;
                               "user_id" := user_id user ]}),
         with_current_user (Some user)
           (logged (CallLoginUser user)
              (with_users us (logged (CallFindOrCreateUser accounts) w1))))
    | (Raise e, w1) => (Raise e, w1)
    | (OutOfFuel, w1) => (OutOfFuel, w1)
    end.
Proof.
  intros Hm Hne. unfold Auth. rewrite JsonView_run. unfold Auth_body.
  rewrite py_bind_run. unfold Py.contains.
  rewrite bool_decide_eq_true_2 by (rewrite Hm; eauto).
  change (negb true) with false. cbv iota.
  rewrite py_bind_run. unfold Py.getitem. rewrite Hm.
  destruct submitted as [|account_data submitted]; [congruence|].
  change (negb (Py.is_list (JList (account_data :: submitted)))
          || negb (Py.truthy (JList (account_data :: submitted))))
    with false. cbv iota.
  rewrite py_bind_run. unfold iter_list. rewrite bind_run.
  destruct (Auth_for (account_data :: submitted) [] w)
    as [[[response|accounts]| |] w1]; try reflexivity.
  rewrite bind_run. unfold call_FindOrCreateUser.
  destruct (FindOrCreateUser accounts (users w1)) as [user us]. reflexivity.
Qed.

(** On a non-empty list of assertion objects [Auth] does what is asked
    of it: if some assertion is refused (shape or token) the request is
    answered with a failure response and nothing but token checks has
    happened; if every assertion is accepted the user is found or
    created from the accepted accounts and logged in, and the success
    response carries the user's identifier. *)
Lemma Auth_on_assertion_objects (m : dict) (submitted : list json) w :
  m !! "accounts" = Some (JList submitted) ->
  submitted ≠ [] ->
  Forall assertion_object submitted ->
  (Exists refused submitted ->
   ∃ (response : dict) calls w',
     Auth (JObj m) tt w = (Return (json_dumps response), w') ∧
     (response = _INVALID_REQUEST_RESPONSE ∨
      response = invalid_token_response) ∧
     only_logged calls w w' ∧ forallb is_token_check calls = true) ∧
  (∀ accounts, Forall2 accepted submitted accounts ->
   ∃ calls w1 user us,
     only_logged calls w w1 ∧ forallb is_token_check calls = true ∧
     FindOrCreateUser accounts (users w) = (user, us) ∧
     Auth (JObj m) tt w =
       (Return (json_dumps {[ "success" := JBool true;
                              "user_id" := user_id user ]}),
        with_current_user (Some user)
          (logged (CallLoginUser user)
             (with_users us (logged (CallFindOrCreateUser accounts) w1))))).
Proof.
  intros Hm Hne Hobjects.
  pose proof (Auth_for_scan submitted [] w) as Hscan.
  destruct (Auth_for submitted [] w) as [o w1] eqn:Hfor.
  simpl in Hscan. subst o.
  destruct (Auth_for_spec _ _ _ _ _ Hfor) as [(calls & Hlog & Hcalls) _].
  split.
  - intros Hrefused.
    rewrite (Auth_run m submitted w Hm Hne), Hfor.
    destruct (scan_some_refused _ Hobjects Hrefused []) as [-> | ->];
      eexists _, calls, w1; (split; [reflexivity|]);
      (split; [auto|]); split; assumption.
  - intros accounts Haccepted.
    rewrite (Auth_run m submitted w Hm Hne), Hfor.
    rewrite (scan_all_accepted _ _ Haccepted []). simpl.
    destruct (FindOrCreateUser accounts (users w1)) as [user us] eqn:Hfind.
    exists calls, w1, user, us.
    assert (Husers : users w1 = users w) by (rewrite Hlog; reflexivity).
    rewrite <- Husers. repeat split; assumption.
Qed.

(** ** Every handler returns an API response *)





(** ** Where the handlers answer *)













End Properties.

(** * The handlers on the in-memory instance *)

Import InMemory.

Lemma oversized_long_text_request : oversized_text long_text_request.
Proof. exists 9%nat. split; [reflexivity | reflexivity]. Qed.

Lemma valid_text_request_abc : valid_text (text_request "abc").
Proof. exists 3%nat. split; [reflexivity | discriminate]. Qed.

Lemma valid_list_text_request : valid_text list_text_request.
Proof. exists 0%nat. split; [reflexivity | discriminate]. Qed.

(** A text is measured in characters: five Greek letters take ten
    bytes and count five, so they pass a gate whose maximum is eight and
    are rendered; nine of them do not pass. *)
Example text_is_counted_in_characters :
  String.length "αβγδε" = 10%nat ∧
  Py.len (JStr "αβγδε") = Return 5%nat ∧
  valid_text (text_request "αβγδε") ∧
  new_calls anonymous (AsciiDocToHtml (text_request "αβγδε") tt anonymous).2
    = [CallGetAsciiDocResult (JStr "αβγδε")] ∧
  oversized_text (text_request "αβγδεζηθι").
Proof.
  split; [reflexivity|]. split; [reflexivity|].
  split; [exists 5%nat; split; [reflexivity | discriminate]|].
  split; [reflexivity|].
  exists 9%nat. split; reflexivity.
Qed.


(** Logged out, every gated handler answers "Not authenticated"; alice
    logs out and is then answered the same. *)
Lemma C5_witness :
  gated_handlers_reject anonymous ∧
  Logout JNull tt as_alice =
    (Return (json_dumps _SUCCESS_RESPONSE),
     with_current_user None (logged CallLogoutUser as_alice)) ∧
  gated_handlers_reject
    (with_current_user None (logged CallLogoutUser as_alice)).
Proof.
  destruct (C5_not_authenticated_gate anonymous) as [Hanon _].
  destruct (C5_not_authenticated_gate as_alice) as [_ Hout].
  split.
  - apply Hanon. reflexivity.
  - apply (Hout "alice" JNull). reflexivity.
Defined.

(** A nine-character text against a maximum of eight. *)
Lemma C3_witness :
  AsciiDocToHtml long_text_request tt anonymous =
    (Return (json_dumps _INVALID_REQUEST_RESPONSE), anonymous) ∧
  CreateDocument 1 long_text_request tt as_alice =
    (Return (json_dumps _INVALID_REQUEST_RESPONSE), as_alice) ∧
  SaveDocument long_text_request "d2" anonymous =
    (Return (json_dumps _NOT_AUTHENTICATED_RESPONSE), anonymous).
Proof.
  destruct (C3_oversized_text_rejected anonymous long_text_request
              oversized_long_text_request) as (_ & Hrender & _ & Hsave).
  destruct (C3_oversized_text_rejected as_alice long_text_request
              oversized_long_text_request) as (_ & _ & Hcreate & _).
  split; [exact Hrender|]. split; [exact (Hcreate 1%nat)|].
  exact (Hsave "d2").
Defined.

(** The claim as first stated fails for [CreateDocument]: logged out, a
    request with a text that is too long is answered "Not authenticated",
    not "Invalid request". *)
Lemma C3_counterexample :
  oversized_text long_text_request ∧
  CreateDocument 1 long_text_request tt anonymous =
    (Return (json_dumps _NOT_AUTHENTICATED_RESPONSE), anonymous) ∧
  CreateDocument 1 long_text_request tt anonymous ≠
    (Return (json_dumps _INVALID_REQUEST_RESPONSE), anonymous).
Proof.
  split; [exact oversized_long_text_request|].
  assert (Hrun : CreateDocument 1 long_text_request tt anonymous =
            (Return (json_dumps _NOT_AUTHENTICATED_RESPONSE), anonymous))
    by reflexivity.
  split; [exact Hrun|]. rewrite Hrun. intros Heq.
  apply (f_equal (fun r => match r.1 with
                           | Return body => error_message_of body
                           | _ => None
                           end)) in Heq.
  vm_compute in Heq. discriminate Heq.
Qed.

(** Alice creates a document while the identifier source hands out "d1"
    and "d2", both taken, and then "d3": two collisions, then success
    with "d3".  A text that is a list is refused by the store at the
    first save. *)
Lemma C1_witness :
  (∃ w2, CreateDocument 3 (text_request "abc") tt as_alice =
           (Return (json_dumps {[ "success" := JBool true;
                                  "document_id" := JStr "d3" ]}), w2)) ∧
  (∃ w2, CreateDocument 1 list_text_request tt as_alice =
           (Return (json_dumps _INVALID_REQUEST_RESPONSE), w2)).
Proof.
  split.
  - eexists.
    eapply (C1_create_retries_until_saved as_alice "alice"
              (text_request "abc") 2 3).
    + reflexivity.
    + exact valid_text_request_abc.
    + eapply collides_S; [reflexivity | reflexivity |].
      eapply collides_S; [reflexivity | reflexivity |].
      apply collides_O.
    + reflexivity.
    + lia.
    + reflexivity.
  - eexists.
    eapply (C1_create_retries_until_saved as_alice "alice"
              list_text_request 0 1).
    + reflexivity.
    + exact valid_list_text_request.
    + apply collides_O.
    + reflexivity.
    + lia.
    + reflexivity.
Defined.

(** Alice asks for bob's private document "d1". *)
Lemma C2_witness :
  GetDocument JNull "d1" as_alice =
    (Return (json_dumps _NOT_AUTHENTICATED_RESPONSE),
     logged (CallIsReadableByUser (stored "d1" "bob" "hello"))
       (logged (CallGet "d1") as_alice)) ∧
  DeleteDocument JNull "d1" as_alice =
    (Return (json_dumps _NOT_AUTHENTICATED_RESPONSE),
     logged (CallIsWritableByUser (stored "d1" "bob" "hello"))
       (logged (CallGet "d1") as_alice)) ∧
  store (SaveDocument (text_request "mine") "d1" as_alice).2 = store0 ∧
  SaveDocument (text_request "mine") "d1" as_alice =
    (Return (json_dumps _NOT_AUTHENTICATED_RESPONSE),
     logged (CallIsWritableByUser (stored "d1" "bob" "hello"))
       (logged (CallGet "d1") as_alice)).
Proof.
  assert (Hsome : Get (store as_alice) "d1"
                  = Some (stored "d1" "bob" "hello")) by reflexivity.
  destruct (C2_permission_checks as_alice "alice" "d1"
              (stored "d1" "bob" "hello") eq_refl Hsome)
    as (Hget & Hdelete & _ & Hsave).
  split; [exact (Hget JNull)|]. split; [exact (Hdelete JNull)|].
  destruct (Hsave eq_refl (text_request "mine")) as (Hstore & _ & Hdenied).
  split; [exact Hstore|]. apply Hdenied.
  exists 4%nat. split; [reflexivity | discriminate].
Defined.

(** The renderer of the instance wraps a text in a paragraph and exits
    with status 0. *)
Lemma C6_witness :
  ∃ response : dict,
    AsciiDocToHtml (text_request "abc") tt anonymous =
      (Return (json_dumps response),
       logged (CallGetAsciiDocResult (JStr "abc")) anonymous) ∧
    response !! "success" = Some (JBool true) ∧
    response !! "html" = Some (JStr "<p>abc</p>") ∧
    response !! "error_message" = Some (JStr EmptyString).
Proof.
  destruct (C6_renderer_reported_verbatim anonymous (text_request "abc")
              (JStr "abc") eq_refl valid_text_request_abc)
    as (response & Hrun & Hsuccess & _ & Hhtml & Herr).
  exists response. repeat split; assumption.
Defined.

(** The claim as first stated fails for a text that is too long: the
    renderer of the instance would exit with status 0 on it, yet the
    response says "success": false and carries no "html". *)
Lemma C6_counterexample :
  (GetAsciiDocResult (JStr "abcdefghi")).1.1 = 0 ∧
  AsciiDocToHtml long_text_request tt anonymous =
    (Return (json_dumps _INVALID_REQUEST_RESPONSE), anonymous) ∧
  _INVALID_REQUEST_RESPONSE !! "success" = Some (JBool false) ∧
  _INVALID_REQUEST_RESPONSE !! "html" = None ∧
  _INVALID_REQUEST_RESPONSE !! "error_message" ≠
    Some (JStr (GetAsciiDocResult (JStr "abcdefghi")).2).
Proof.
  repeat split. vm_compute. discriminate.
Qed.

(** Alice names a document "d9" that does not exist. *)
Lemma C7_witness :
  GetDocument JNull "d9" as_alice =
    (Return (json_dumps _INVALID_DOCUMENT_ID_RESPONSE),
     logged (CallGet "d9") as_alice) ∧
  DeleteDocument JNull "d9" as_alice =
    (Return (json_dumps _INVALID_DOCUMENT_ID_RESPONSE),
     logged (CallGet "d9") as_alice) ∧
  SaveDocument (text_request "abc") "d9" as_alice =
    (Return (json_dumps _INVALID_DOCUMENT_ID_RESPONSE),
     logged (CallGet "d9") as_alice) ∧
  SaveDocument (JObj ∅) "d9" as_alice =
    (Return (json_dumps _INVALID_REQUEST_RESPONSE), as_alice).
Proof.
  assert (Hnone : Get (store as_alice) "d9" = None) by reflexivity.
  destruct (C7_unknown_document_id as_alice "alice" "d9" eq_refl Hnone)
    as (Hget & Hdelete & Hsave & Hrefused).
  split; [exact (Hget JNull)|]. split; [exact (Hdelete JNull)|].
  split; [exact (Hsave _ valid_text_request_abc)|].
  apply Hrefused. left. reflexivity.
Defined.

(** The claim as first stated fails for [SaveDocument]: alice saves to
    the unknown identifier "d9" without a "text" and is answered "Invalid
    request", not "Invalid document ID". *)
Lemma C7_counterexample :
  current_user as_alice = Some "alice" ∧
  Get (store as_alice) "d9" = None ∧
  SaveDocument (JObj ∅) "d9" as_alice =
    (Return (json_dumps _INVALID_REQUEST_RESPONSE), as_alice) ∧
  (SaveDocument (JObj ∅) "d9" as_alice).1 ≠
    Return (json_dumps _INVALID_DOCUMENT_ID_RESPONSE).
Proof.
  repeat split. intros Heq.
  apply (f_equal (fun o => match o with
                           | Return body => error_message_of body
                           | _ => None
                           end)) in Heq.
  vm_compute in Heq. discriminate Heq.
Qed.



(** Alice names the unknown "d9" and bob's private "d1". *)
Lemma C9_witness :
  GetDocument JNull "d9" as_alice =
    (Return (json_dumps _INVALID_DOCUMENT_ID_RESPONSE),
     logged (CallGet "d9") as_alice) ∧
  GetDocument JNull "d1" as_alice =
    (Return (json_dumps _NOT_AUTHENTICATED_RESPONSE),
     logged (CallIsReadableByUser (stored "d1" "bob" "hello"))
       (logged (CallGet "d1") as_alice)) ∧
  SaveDocument (text_request "abc") "d1" as_alice =
    (Return (json_dumps _NOT_AUTHENTICATED_RESPONSE),
     logged (CallIsWritableByUser (stored "d1" "bob" "hello"))
       (logged (CallGet "d1") as_alice)).
Proof.
  assert (Hnone : Get (store as_alice) "d9" = None) by reflexivity.
  assert (Hsome : Get (store as_alice) "d1"
                  = Some (stored "d1" "bob" "hello")) by reflexivity.
  destruct (C9_existence_before_permission as_alice "alice" "d9" eq_refl)
    as (Hmissing & _ & _).
  destruct (C9_existence_before_permission as_alice "alice" "d1" eq_refl)
    as (_ & Hdenied & _).
  destruct (Hmissing Hnone) as (Hget & _ & _).
  destruct (Hdenied _ Hsome) as (Hread & Hwrite).
  split; [exact (Hget JNull)|].
  split; [exact (Hread eq_refl JNull)|].
  destruct (Hwrite eq_refl) as [_ Hsave].
  exact (Hsave _ valid_text_request_abc).
Defined.

(** The claim as first stated fails for [SaveDocument]: alice saves to
    bob's existing document "d1" without a "text" and is answered "Invalid
    request", not "Not authenticated". *)
Lemma C9_counterexample :
  current_user as_alice = Some "alice" ∧
  Get (store as_alice) "d1" = Some (stored "d1" "bob" "hello") ∧
  IsWritableByUser (stored "d1" "bob" "hello") (Some "alice") = false ∧
  SaveDocument (JObj ∅) "d1" as_alice =
    (Return (json_dumps _INVALID_REQUEST_RESPONSE), as_alice) ∧
  (SaveDocument (JObj ∅) "d1" as_alice).1 ≠
    Return (json_dumps _NOT_AUTHENTICATED_RESPONSE).
Proof.
  repeat split. intros Heq.
  apply (f_equal (fun o => match o with
                           | Return body => error_message_of body
                           | _ => None
                           end)) in Heq.
  vm_compute in Heq. discriminate Heq.
Qed.



(** C4.  [Auth] on a list whose first assertion passes the shape check
    and the token verification but carries no "data", and whose second
    element is an empty object: the handler raises [KeyError] at
    [account_data['data']] after the provider has accepted the token, so
    the request is not answered with a failure response.  No user is
    looked up, created or logged in. *)
Lemma C4_auth_raises_on_missing_data :
  Auth auth_request_without_data tt anonymous =
    (Raise KeyError,
     logged (CallIsTokenValid (JStr "google") (JStr "carol") (JStr "good"))
       anonymous) ∧
  Auth_rejects assertion_without_data = Return false ∧
  Auth_rejects (JObj ∅) = Return true ∧
  Auth (JObj {[ "accounts" := JList [JNum 5] ]}) tt anonymous =
    (Raise AttributeError, anonymous).
Proof. repeat split. Qed.

(** Carol, with a complete assertion and a good token, is created and
    logged in. *)
Example Auth_logs_carol_in :
  (Auth auth_request_of_carol tt anonymous).1 =
    Return (json_dumps {[ "success" := JBool true;
                          "user_id" := JStr "carol" ]}) ∧
  current_user (Auth auth_request_of_carol tt anonymous).2 = Some "carol" ∧
  users (Auth auth_request_of_carol tt anonymous).2
    = ["alice"; "bob"; "carol"].
Proof. repeat split. Qed.

(** * Further properties of the handlers *)

Section MoreProperties.

Context {User Fields Store Users Rng : Type}.
Context `{!Collaborators User Fields Store Users Rng}.

Implicit Types (w : World User Fields Store Users Rng).
Implicit Types (request_data : json) (id : string).
Implicit Types (document : Document User Fields).

(** ** The text gate on every request *)

Lemma RequireText_ill_typed {Args} (view_function : json -> Args -> M dict)
    request_data (args : Args) w :
  ill_typed_text request_data ->
  _RequireText view_function request_data args w = (Raise TypeError, w).
Proof.
  destruct request_data as [| | |s|l|m]; simpl; intros Hill;
    try reflexivity.
  - unfold _RequireText. rewrite py_bind_run. simpl. rewrite Hill.
    reflexivity.
  - unfold _RequireText. rewrite py_bind_run. simpl. rewrite Hill.
    reflexivity.
  - destruct Hill as (text & Hm & Hunsized).
    unfold _RequireText. rewrite py_bind_run. simpl.
    rewrite bool_decide_eq_true_2 by (rewrite Hm; eauto). simpl.
    rewrite py_bind_run. simpl. rewrite Hm. rewrite py_bind_run.
    destruct text; try discriminate Hunsized; reflexivity.
Qed.

(** X1.  The text gate sorts every request body into one of three kinds
    and treats each kind in one way: a body whose "text" is present and
    no longer than the maximum is handed to the view function as it is;
    a body without "text", or with a "text" that is too long, is
    answered [_INVALID_REQUEST_RESPONSE]; any other body (null, a
    boolean, a number, a string or list that contains "text", a "text"
    without a length) makes the gate raise [TypeError].  In the last two
    cases the view function is not called and the world is untouched. *)
Theorem text_gate_outcomes {Args} (view_function : json -> Args -> M dict)
    request_data (args : Args) w :
  (valid_text request_data ∨ refused_text request_data ∨
   ill_typed_text request_data) ∧
  (valid_text request_data ->
   _RequireText view_function request_data args w =
     view_function request_data args w) ∧
  (refused_text request_data ->
   _RequireText view_function request_data args w =
     (Return _INVALID_REQUEST_RESPONSE, w)) ∧
  (ill_typed_text request_data ->
   _RequireText view_function request_data args w = (Raise TypeError, w)).
Proof.
  split; [apply text_sorts|]. split; [apply RequireText_valid|].
  split; [|apply RequireText_ill_typed].
  intros [Hno | Hlong].
  - apply RequireText_missing, Hno.
  - apply RequireText_oversized, Hlong.
Qed.

(** X2.  A request whose body is ill-typed for the text gate is not
    answered with a JSON response by the handlers behind the gate:
    [AsciiDocToHtml] and, for a logged-in user, [CreateDocument] and
    [SaveDocument] raise [TypeError]; nothing is called and the world is
    untouched. *)
Theorem ill_typed_text_raises w request_data :
  ill_typed_text request_data ->
  AsciiDocToHtml request_data tt w = (Raise TypeError, w) ∧
  (∀ u : User, current_user w = Some u ->
     (∀ fuel, CreateDocument fuel request_data tt w = (Raise TypeError, w)) ∧
     (∀ id, SaveDocument request_data id w = (Raise TypeError, w))).
Proof.
  intros Hill. split.
  - unfold AsciiDocToHtml. rewrite JsonView_run.
    rewrite RequireText_ill_typed by exact Hill. reflexivity.
  - intros u Hu. split.
    + intros fuel. unfold CreateDocument. rewrite JsonView_run.
      rewrite (RequireAuth_authenticated _ _ _ _ u) by exact Hu.
      rewrite RequireText_ill_typed by exact Hill. reflexivity.
    + intros id. rewrite (SaveDocument_authenticated _ u) by exact Hu.
      rewrite JsonView_run.
      rewrite RequireText_ill_typed by exact Hill. reflexivity.
Qed.

(** X3.  [AsciiDocToHtml] runs the renderer on a text string exactly when
    the string is no longer than [MAX_SOURCE_TEXT_SIZE], and then once,
    on that string; a string of exactly the maximum length is still
    converted. *)
Theorem AsciiDocToHtml_renders_iff_text_fits w (m : dict) (s : string) :
  new_calls w (AsciiDocToHtml (JObj (<[ "text" := JStr s ]> m)) tt w).2 =
    if MAX_SOURCE_TEXT_SIZE <? Z.of_nat (Py.str_len s)
    then []
    else [CallGetAsciiDocResult (JStr s)].
Proof.
  set (request_data := JObj (<[ "text" := JStr s ]> m)).
  assert (Hlen : text_length request_data = Return (Py.str_len s)).
  { unfold text_length, request_data. simpl.
    rewrite lookup_insert_eq. reflexivity. }
  destruct (Z.ltb_spec MAX_SOURCE_TEXT_SIZE (Z.of_nat (Py.str_len s)))
    as [Hlong | Hfits].
  - unfold AsciiDocToHtml. rewrite JsonView_run.
    rewrite RequireText_oversized by (eexists; split; eassumption).
    simpl. apply new_calls_none.
  - assert (Htext : Py.getitem request_data "text" = Return (JStr s)).
    { unfold request_data. simpl. rewrite lookup_insert_eq. reflexivity. }
    assert (Hvalid : valid_text request_data)
      by (eexists; split; eassumption).
    unfold AsciiDocToHtml. rewrite JsonView_run.
    rewrite RequireText_valid by exact Hvalid.
    unfold AsciiDocToHtml_body. rewrite py_bind_run, Htext, bind_run.
    unfold call_GetAsciiDocResult.
    destruct (GetAsciiDocResult (JStr s)) as [[rc out] err]. simpl.
    unfold new_calls. simpl. apply drop_app_length.
Qed.

(** ** [Auth] *)

Lemma only_logged_new_calls calls w w' :
  only_logged calls w w' -> new_calls w w' = calls.
Proof. intros ->. unfold new_calls. simpl. apply drop_app_length. Qed.

Lemma only_logged_frame calls w w' :
  only_logged calls w w' -> same_accounts w w' ∧ same_documents w w'.
Proof. intros ->. repeat split. Qed.

(** X4.  [Auth] refuses a request object that has no "accounts", or
    whose "accounts" is not a list, or is the empty list, with
    [_INVALID_REQUEST_RESPONSE], before it looks at anything else: no
    provider is asked and the world is untouched. *)
Theorem Auth_refuses_missing_accounts (m : dict) w :
  no_accounts m ->
  Auth (JObj m) tt w = (Return (json_dumps _INVALID_REQUEST_RESPONSE), w).
Proof.
  intros Hno. unfold Auth. rewrite JsonView_run. unfold Auth_body.
  rewrite py_bind_run. unfold Py.contains.
  destruct Hno as [Hm | [(v & Hm & Hlist) | Hm]].
  - rewrite bool_decide_eq_false_2
      by (rewrite Hm; intros [? ?]; discriminate).
    reflexivity.
  - rewrite bool_decide_eq_true_2 by (rewrite Hm; eauto).
    change (negb true) with false. cbv iota.
    rewrite py_bind_run. unfold Py.getitem. rewrite Hm, Hlist. reflexivity.
  - rewrite bool_decide_eq_true_2 by (rewrite Hm; eauto).
    change (negb true) with false. cbv iota.
    rewrite py_bind_run. unfold Py.getitem. rewrite Hm. reflexivity.
Qed.

(** X5.  [Auth] is all or nothing, on every request.  It never touches
    the document store or the source of identifiers.  Either it answers
    the success response for a user, who is then the current user, after
    one [FindOrCreateUser] and one [login_user]; or the session and the
    account table are as they were, the only calls made are token checks,
    and whatever is returned is a failure response. *)
Theorem Auth_all_or_nothing_on_every_request request_data w :
  let o := (Auth request_data tt w).1 in
  let w' := (Auth request_data tt w).2 in
  same_documents w w' ∧
  ((∃ (user : User) accounts,
      o = Return (json_dumps {[ "success" := JBool true;
                                "user_id" := user_id user ]}) ∧
      current_user w' = Some user ∧
      CallFindOrCreateUser accounts ∈ new_calls w w' ∧
      CallLoginUser user ∈ new_calls w w') ∨
   (same_accounts w w' ∧
    forallb is_token_check (new_calls w w') = true ∧
    ∀ body, o = Return body -> failure_response body)).
Proof.
  simpl. destruct (Auth request_data tt w) as [o w'] eqn:Hrun. simpl.
  destruct (Auth_all_or_nothing _ _ _ _ Hrun)
    as [(calls & Hlog & Hcalls & Hbody)
       | (calls & w1 & accounts & user & us & Hlog & _ & _ & -> & ->)].
  - destruct (only_logged_frame _ _ _ Hlog) as [Haccounts Hdocuments].
    split; [exact Hdocuments|]. right.
    rewrite (only_logged_new_calls _ _ _ Hlog).
    split; [exact Haccounts|]. split; [exact Hcalls|].
    intros body Hreturn.
    destruct (Hbody body Hreturn) as [-> | ->]; apply failure_response_stock.
  - destruct (only_logged_frame _ _ _ Hlog) as [_ [Hstore Hrng]].
    split; [split; simpl; assumption|]. left.
    exists user, accounts. split; [reflexivity|]. split; [reflexivity|].
    assert (Hnew : new_calls w
                     (with_current_user (Some user)
                        (logged (CallLoginUser user)
                           (with_users us
                              (logged (CallFindOrCreateUser accounts) w1))))
                   = (calls ++ [CallFindOrCreateUser accounts;
                                CallLoginUser user])%list).
    { unfold new_calls. simpl. rewrite Hlog. simpl.
      rewrite <- !app_assoc. apply drop_app_length. }
    rewrite Hnew. split; apply elem_of_app; right.
    + apply list_elem_of_here.
    + apply list_elem_of_further, list_elem_of_here.
Qed.

(** X6.  On a request whose "accounts" is a non-empty list of assertion
    objects, [Auth] fails the whole request with a failure response, and
    nothing but token checks made, if some assertion is refused for its
    shape or its token; if every assertion is accepted, it finds or
    creates the user from the accepted accounts, in the order submitted,
    logs the user in and answers success with the user's identifier. *)
Theorem Auth_on_lists_of_assertion_objects (m : dict)
    (submitted : list json) w :
  m !! "accounts" = Some (JList submitted) ->
  submitted ≠ [] ->
  Forall assertion_object submitted ->
  (Exists refused submitted ->
   ∃ (response : dict) calls w',
     Auth (JObj m) tt w = (Return (json_dumps response), w') ∧
     (response = _INVALID_REQUEST_RESPONSE ∨
      response = invalid_token_response) ∧
     only_logged calls w w' ∧ forallb is_token_check calls = true) ∧
  (∀ accounts, Forall2 accepted submitted accounts ->
   ∃ calls w1 (user : User) us,
     only_logged calls w w1 ∧ forallb is_token_check calls = true ∧
     FindOrCreateUser accounts (users w) = (user, us) ∧
     Auth (JObj m) tt w =
       (Return (json_dumps {[ "success" := JBool true;
                              "user_id" := user_id user ]}),
        with_current_user (Some user)
          (logged (CallLoginUser user)
             (with_users us (logged (CallFindOrCreateUser accounts) w1))))).
Proof. apply Auth_on_assertion_objects. Qed.

(** One turn of the loop of [Auth]: an accepted assertion is added to
    the accounts and the loop goes on; any other assertion ends the loop
    with a result that does not depend on what follows it. *)
Lemma Auth_for_head account_data w :
  match assess account_data with
  | Return (Accepted a) =>
      ∃ w1, ∀ remaining accounts,
        Auth_for (account_data :: remaining) accounts w =
          Auth_for remaining (accounts ++ [a]) w1
  | _ =>
      ∃ r, ∀ remaining accounts,
        Auth_for (account_data :: remaining) accounts w = r
  end.
Proof.
  unfold assess. rewrite ?outcome_bind_run.
  destruct (Auth_rejects account_data) as [[]| |] eqn:Hrejects;
    [eexists; intros; simpl; rewrite py_bind_run, Hrejects;
     cbv beta iota; reflexivity
    | 
    | eexists; intros; simpl; rewrite py_bind_run, Hrejects;
      cbv beta iota; reflexivity ..].
  rewrite ?outcome_bind_run.
  destruct (Py.getitem account_data "account_provider_type")
    as [provider_type| |] eqn:Htype;
    [|eexists; intros; simpl; rewrite py_bind_run, Hrejects;
      cbv beta iota; rewrite py_bind_run, Htype;
      cbv beta iota; reflexivity ..].
  rewrite ?outcome_bind_run.
  destruct (Py.table_getitem ACCOUNT_PROVIDERS provider_type)
    as [account_provider| |] eqn:Hprovider;
    [|eexists; intros; simpl; rewrite py_bind_run, Hrejects;
      cbv beta iota; rewrite py_bind_run, Htype, py_bind_run, Hprovider;
      cbv beta iota; reflexivity ..].
  rewrite ?outcome_bind_run.
  destruct (Py.getitem account_data "user_id") as [uid| |] eqn:Huid;
    [|eexists; intros; simpl; rewrite py_bind_run, Hrejects;
      cbv beta iota; rewrite py_bind_run, Htype, py_bind_run, Hprovider,
        py_bind_run, Huid; cbv beta iota; reflexivity ..].
  rewrite ?outcome_bind_run.
  destruct (Py.getitem account_data "auth_token")
    as [auth_token| |] eqn:Htoken;
    [|eexists; intros; simpl; rewrite py_bind_run, Hrejects;
      cbv beta iota; rewrite py_bind_run, Htype, py_bind_run, Hprovider,
        py_bind_run, Huid, py_bind_run, Htoken;
      cbv beta iota; reflexivity ..].
  destruct (account_provider uid auth_token) eqn:Hvalid; simpl.
  2:{ eexists; intros; simpl; rewrite py_bind_run, Hrejects.
      cbv beta iota. rewrite py_bind_run, Htype, py_bind_run, Hprovider,
        py_bind_run, Huid, py_bind_run, Htoken, bind_run.
      unfold call_IsTokenValid. rewrite Hvalid.
      change (negb false) with true. cbv beta iota. reflexivity. }
  rewrite ?outcome_bind_run.
  destruct (Py.getitem account_data "data") as [data| |] eqn:Hdata;
    eexists; intros; simpl; rewrite py_bind_run, Hrejects;
    cbv beta iota; rewrite py_bind_run, Htype, py_bind_run, Hprovider,
      py_bind_run, Huid, py_bind_run, Htoken, bind_run;
    unfold call_IsTokenValid; rewrite Hvalid;
    change (negb true) with false; cbv beta iota;
    rewrite py_bind_run, ?Hdata; cbv beta iota; reflexivity.
Qed.

Lemma Auth_for_ignores_the_rest accepted_first :
  ∀ (new : list account) bad rest rest' accounts w,
    Forall2 accepted accepted_first new ->
    refused bad ->
    Auth_for (accepted_first ++ bad :: rest) accounts w =
    Auth_for (accepted_first ++ bad :: rest') accounts w.
Proof.
  induction accepted_first as [|account_data accepted_first IH];
    intros new bad rest rest' accounts w Haccepted Hrefused.
  - simpl app. pose proof (Auth_for_head bad w) as Hhead.
    destruct Hrefused as [Hbad | Hbad]; rewrite Hbad in Hhead;
      destruct Hhead as [r Hr]; rewrite !Hr; reflexivity.
  - inversion Haccepted as [|? a ? new' Ha Hrest]; subst.
    simpl app. pose proof (Auth_for_head account_data w) as Hhead.
    rewrite Ha in Hhead. destruct Hhead as [w1 Hstep].
    rewrite !Hstep. apply (IH new'); assumption.
Qed.

(** X7.  [Auth] stops at the first assertion it refuses: when the
    assertions before it are accepted, whatever follows the refused
    assertion in the submitted list -- well-formed or not -- is never
    looked at, and changes neither the response nor the world. *)
Theorem Auth_stops_at_first_refusal (m : dict)
    (accepted_first : list json) (new : list account)
    (bad : json) (rest rest' : list json) w :
  Forall2 accepted accepted_first new ->
  refused bad ->
  Auth (JObj (<[ "accounts" := JList (accepted_first ++ bad :: rest) ]> m))
    tt w =
  Auth (JObj (<[ "accounts" := JList (accepted_first ++ bad :: rest') ]> m))
    tt w.
Proof.
  intros Haccepted Hrefused.
  rewrite !(Auth_run _ _ w (lookup_insert_eq _ _ _))
    by (destruct accepted_first; discriminate).
  rewrite (Auth_for_ignores_the_rest _ _ _ rest rest' [] w
             Haccepted Hrefused).
  reflexivity.
Qed.

(** ** [CreateDocument] *)

Lemma CreateDocument_run w (u : User) request_data fuel :
  current_user w = Some u ->
  valid_text request_data ->
  CreateDocument fuel request_data tt w =
    match CreateDocument_while fuel (new_document w request_data) w with
    | (Return (inl response), w') => (Return (json_dumps response), w')
    | (Return (inr document), w') =>
        (Return (json_dumps {[ "success" := JBool true;
                               "document_id" := document_id document ]}),
         w')
    | (Raise e, w') => (Raise e, w')
    | (OutOfFuel, w') => (OutOfFuel, w')
    end.
Proof.
  intros Hu Hvalid. unfold CreateDocument. rewrite JsonView_run.
  rewrite (RequireAuth_authenticated _ _ _ _ u) by exact Hu.
  rewrite RequireText_valid by exact Hvalid.
  unfold CreateDocument_body, new_document. rewrite bind_run.
  unfold get_current_user. rewrite bind_run.
  destruct (CreateDocument_while fuel _ w) as [[[response|document]|e|] w'];
    reflexivity.
Qed.

Lemma CreateDocument_while_out_of_fuel n document w document' w' :
  collides n document w document' w' ->
  ∀ fuel, (fuel <= n)%nat ->
    (CreateDocument_while fuel document w).1 = OutOfFuel.
Proof.
  induction 1 as [d w | n d w id w1 w2 d' w' Hid Hsave _ IH];
    intros fuel Hfuel.
  - replace fuel with 0%nat by lia. reflexivity.
  - destruct fuel as [|fuel]; [reflexivity|].
    rewrite CreateDocument_while_S, Hid. simpl.
    rewrite CreateDocument_try_save_run, Hsave. apply IH. lia.
Qed.

(** X8.  The retry loop of [CreateDocument] gives up on nothing: while
    the saves go on raising [NotUniqueError] it goes on asking for
    identifiers.  After [n] collisions in a row, [n] turns of the loop
    have produced no response, whatever follows. *)
Theorem CreateDocument_retries_without_bound w (u : User) request_data
    (n fuel : nat) document' w' :
  current_user w = Some u ->
  valid_text request_data ->
  collides n (new_document w request_data) w document' w' ->
  (fuel <= n)%nat ->
  (CreateDocument fuel request_data tt w).1 = OutOfFuel.
Proof.
  intros Hu Hvalid Hcollides Hfuel.
  rewrite (CreateDocument_run w u) by assumption.
  pose proof (CreateDocument_while_out_of_fuel _ _ _ _ _ Hcollides
                fuel Hfuel) as Hloop.
  destruct (CreateDocument_while fuel _ w) as [[[response|document]|e|] w1];
    try discriminate Hloop. reflexivity.
Qed.

(** X9.  [CreateDocument] catches [NotUniqueError] and [ValidationError]
    and nothing else: when, after any number of collisions, a save
    raises another exception, the handler raises it, and no response is
    returned. *)
Theorem CreateDocument_raises_other_save_errors w (u : User) request_data
    (n fuel : nat) document' w' id w1 (e : exn) w2 :
  current_user w = Some u ->
  valid_text request_data ->
  collides n (new_document w request_data) w document' w' ->
  call_NewDocumentId w' = (Return id, w1) ->
  call_save (set_document_id id document') w1 = (Raise e, w2) ->
  e ≠ NotUniqueError -> e ≠ ValidationError ->
  (n < fuel)%nat ->
  CreateDocument fuel request_data tt w = (Raise e, w2).
Proof.
  intros Hu Hvalid Hcollides Hid Hsave Hunique Hvalidation Hfuel.
  rewrite (CreateDocument_run w u) by assumption.
  replace fuel with (n + S (fuel - S n))%nat by lia.
  rewrite (CreateDocument_while_collides _ _ _ _ _ Hcollides),
    CreateDocument_while_S, Hid. simpl.
  rewrite CreateDocument_try_save_run, Hsave.
  destruct e; try reflexivity; congruence.
Qed.

Lemma create_calls_of_one_turn (base : Document User Fields) id :
  Forall (create_call base)
    [CallNewDocumentId; CallSave (set_document_id id base)].
Proof.
  constructor; [left; reflexivity|].
  constructor; [right; eexists; reflexivity | constructor].
Qed.

Lemma CreateDocument_while_frame base fuel :
  ∀ document w,
    (document = base ∨ ∃ id, document = set_document_id id base) ->
    ∃ calls,
      log (CreateDocument_while fuel document w).2 = (log w ++ calls)%list ∧
      Forall (create_call base) calls ∧
      same_accounts w (CreateDocument_while fuel document w).2.
Proof.
  induction fuel as [|fuel IH]; intros document w Hbase.
  - exists []. simpl. rewrite app_nil_r. repeat split. constructor.
  - assert (Hnext : ∀ id, set_document_id id document
                          = set_document_id id base).
    { intros id. destruct Hbase as [-> | [id' ->]]; reflexivity. }
    rewrite CreateDocument_while_S. unfold call_NewDocumentId.
    destruct (NewDocumentId (store w) (rng w)) as [id r]. simpl.
    rewrite CreateDocument_try_save_run. unfold call_save. simpl.
    rewrite Hnext.
    destruct (save (set_document_id id base) (store w)) as [[e|] s]; simpl.
    + destruct e;
        try (exists [CallNewDocumentId;
                     CallSave (set_document_id id base)];
             simpl; rewrite <- app_assoc;
             split; [reflexivity|];
             split; [apply create_calls_of_one_turn | split; reflexivity]).
      match goal with |- context [CreateDocument_while fuel ?d ?w0] =>
        destruct (IH d w0 (or_intror (ex_intro _ id eq_refl)))
          as (calls & Hlog & Hcalls & Hsession & Husers)
      end.
      exists (CallNewDocumentId :: CallSave (set_document_id id base)
                :: calls).
      rewrite Hlog. simpl. rewrite <- !app_assoc. simpl.
      split; [reflexivity|]. split.
      * constructor; [left; reflexivity|].
        constructor; [right; eexists; reflexivity | exact Hcalls].
      * split; [exact Hsession | exact Husers].
    + exists [CallNewDocumentId; CallSave (set_document_id id base)].
      simpl. rewrite <- app_assoc.
      split; [reflexivity|].
      split; [apply create_calls_of_one_turn | split; reflexivity].
Qed.

(** X10.  Whatever the request and however long the loop runs, the only
    calls [CreateDocument] makes are requests for a new identifier and
    saves of one and the same document -- the new document filled from
    the request and owned as the current user -- under the identifier
    last handed out: a retry changes the identifier and nothing else. *)
Theorem CreateDocument_saves_one_document w request_data fuel :
  Forall (create_call (new_document w request_data))
    (new_calls w (CreateDocument fuel request_data tt w).2).
Proof.
  unfold CreateDocument. rewrite JsonView_run.
  destruct (current_user w) as [u|] eqn:Hu.
  2:{ rewrite RequireAuth_anonymous by exact Hu. simpl.
      rewrite new_calls_none. constructor. }
  rewrite (RequireAuth_authenticated _ _ _ _ u) by exact Hu.
  destruct (RequireText_cases (CreateDocument_body fuel) request_data tt w)
    as [Hgate | [[e Hgate] | [_ Hgate]]]; rewrite Hgate;
    try (simpl; rewrite new_calls_none; constructor).
  unfold CreateDocument_body. rewrite bind_run.
  unfold get_current_user. rewrite bind_run.
  destruct (CreateDocument_while_frame (new_document w request_data) fuel
              (new_document w request_data) w (or_introl eq_refl))
    as (calls & Hlog & Hcalls & _).
  unfold new_document in *.
  destruct (CreateDocument_while fuel _ w) as [[[response|document]|e|] w'];
    simpl in *; unfold new_calls; rewrite Hlog, drop_app_length;
    exact Hcalls.
Qed.

(** ** [SaveDocument] and [DeleteDocument] *)

(** X11.  For a logged-in user, a request whose text is accepted and an
    existing document the user may write, [SaveDocument] saves the
    document found under the identifier, refilled from the request, and
    answers by the outcome of that one save: [_SUCCESS_RESPONSE] when it
    returns, [_INVALID_REQUEST_RESPONSE] when it raises
    [ValidationError]; any other exception -- [NotUniqueError] included,
    which this handler does not catch -- is raised from the handler. *)
Theorem SaveDocument_answers_by_the_save w (u : User) request_data id
    document :
  current_user w = Some u ->
  valid_text request_data ->
  Get (store w) id = Some document ->
  IsWritableByUser document (Some u) = true ->
  let saved := FromJson document request_data in
  let after s :=
    with_store s
      (logged (CallSave saved)
         (logged (CallIsWritableByUser document)
            (logged (CallGet id) w))) in
  SaveDocument request_data id w =
    match save saved (store w) with
    | (None, s) => (Return (json_dumps _SUCCESS_RESPONSE), after s)
    | (Some ValidationError, s) =>
        (Return (json_dumps _INVALID_REQUEST_RESPONSE), after s)
    | (Some e, s) => (Raise e, after s)
    end.
Proof.
  intros Hu Hvalid Hsome Hwrite. simpl.
  rewrite (SaveDocument_valid_text _ u) by assumption.
  rewrite JsonView_run, SaveDocument_body_run, Hsome. simpl.
  rewrite Hu, Hwrite.
  destruct (save (FromJson document request_data) (store w)) as [[e|] s];
    [destruct e|]; reflexivity.
Qed.

(** X12.  Deleting is final for the handlers: when a logged-in user
    deletes a document they may write, and the store no longer finds
    the identifier afterwards, [DeleteDocument] answers
    [_SUCCESS_RESPONSE] and every later [GetDocument], [DeleteDocument]
    and accepted [SaveDocument] of that identifier by that session is
    answered [_INVALID_DOCUMENT_ID_RESPONSE]. *)
Theorem DeleteDocument_then_unknown w (u : User) id document :
  current_user w = Some u ->
  Get (store w) id = Some document ->
  IsWritableByUser document (Some u) = true ->
  Get (delete document (store w)) id = None ->
  ∀ request_data,
    let w' := (DeleteDocument request_data id w).2 in
    (DeleteDocument request_data id w).1 =
      Return (json_dumps _SUCCESS_RESPONSE) ∧
    store w' = delete document (store w) ∧
    let unknown :=
      (Return (json_dumps _INVALID_DOCUMENT_ID_RESPONSE),
       logged (CallGet id) w') in
    (∀ request_data', GetDocument request_data' id w' = unknown) ∧
    (∀ request_data', DeleteDocument request_data' id w' = unknown) ∧
    (∀ request_data', valid_text request_data' ->
                      SaveDocument request_data' id w' = unknown).
Proof.
  intros Hu Hsome Hwrite Hgone request_data.
  rewrite (DeleteDocument_authenticated _ u) by exact Hu.
  rewrite JsonView_run, DeleteDocument_body_run, Hsome. simpl.
  rewrite Hu, Hwrite. simpl.
  split; [reflexivity|]. split; [reflexivity|].
  apply (missing_document_past_gates _ u id); [exact Hu | exact Hgone].
Qed.

(** ** What each handler leaves alone *)

Lemma AsciiDocToHtml_frame request_data w :
  same_accounts w (AsciiDocToHtml request_data tt w).2 ∧
  same_documents w (AsciiDocToHtml request_data tt w).2.
Proof.
  unfold AsciiDocToHtml. rewrite JsonView_run.
  destruct (RequireText_cases AsciiDocToHtml_body request_data tt w)
    as [Hgate | [[e Hgate] | [_ Hgate]]]; rewrite Hgate;
    try solve [repeat split].
  unfold AsciiDocToHtml_body. rewrite py_bind_run.
  destruct (Py.getitem request_data "text") as [text| |];
    try solve [repeat split].
  rewrite bind_run. unfold call_GetAsciiDocResult.
  destruct (GetAsciiDocResult text) as [[rc out] err]. repeat split.
Qed.

Lemma GetDocument_frame request_data id w :
  same_accounts w (GetDocument request_data id w).2 ∧
  same_documents w (GetDocument request_data id w).2.
Proof.
  destruct (current_user w) as [u|] eqn:Hu.
  - rewrite (GetDocument_authenticated _ u) by exact Hu.
    rewrite JsonView_run, GetDocument_body_run.
    destruct (Get (store w) id); repeat split.
  - destruct (gated_handlers_reject_anonymous w Hu) as (_ & _ & -> & _).
    repeat split.
Qed.

Lemma Logout_frame request_data w :
  users (Logout request_data tt w).2 = users w ∧
  same_documents w (Logout request_data tt w).2.
Proof.
  destruct (current_user w) as [u|] eqn:Hu.
  - unfold Logout. rewrite JsonView_run.
    rewrite (RequireAuth_authenticated _ _ _ _ u) by exact Hu.
    repeat split.
  - destruct (gated_handlers_reject_anonymous w Hu) as (-> & _).
    repeat split.
Qed.

Lemma SaveDocument_frame request_data id w :
  same_accounts w (SaveDocument request_data id w).2 ∧
  rng (SaveDocument request_data id w).2 = rng w.
Proof.
  destruct (current_user w) as [u|] eqn:Hu.
  - rewrite (SaveDocument_authenticated _ u) by exact Hu.
    rewrite JsonView_run.
    destruct (RequireText_cases SaveDocument_body request_data id w)
      as [Hgate | [[e Hgate] | [_ Hgate]]]; rewrite Hgate;
      try solve [repeat split].
    rewrite SaveDocument_body_run.
    destruct (Get (store w) id) as [document|]; [|solve [repeat split]].
    simpl. destruct (IsWritableByUser document (current_user w));
      [|solve [repeat split]].
    destruct (save _ _) as [[e|] s]; [destruct e|]; repeat split.
  - destruct (gated_handlers_reject_anonymous w Hu)
      as (_ & _ & _ & -> & _).
    repeat split.
Qed.

Lemma DeleteDocument_frame request_data id w :
  same_accounts w (DeleteDocument request_data id w).2 ∧
  rng (DeleteDocument request_data id w).2 = rng w.
Proof.
  destruct (current_user w) as [u|] eqn:Hu.
  - rewrite (DeleteDocument_authenticated _ u) by exact Hu.
    rewrite JsonView_run, DeleteDocument_body_run.
    destruct (Get (store w) id) as [document|]; [|solve [repeat split]].
    simpl. destruct (IsWritableByUser document (current_user w));
      repeat split.
  - destruct (gated_handlers_reject_anonymous w Hu)
      as (_ & _ & _ & _ & ->).
    repeat split.
Qed.

Lemma CreateDocument_frame fuel request_data w :
  same_accounts w (CreateDocument fuel request_data tt w).2.
Proof.
  unfold CreateDocument. rewrite JsonView_run.
  destruct (current_user w) as [u|] eqn:Hu.
  2:{ rewrite RequireAuth_anonymous by exact Hu. repeat split. }
  rewrite (RequireAuth_authenticated _ _ _ _ u) by exact Hu.
  destruct (RequireText_cases (CreateDocument_body fuel) request_data tt w)
    as [Hgate | [[e Hgate] | [_ Hgate]]]; rewrite Hgate;
    try solve [repeat split].
  unfold CreateDocument_body. rewrite bind_run.
  unfold get_current_user. rewrite bind_run.
  match goal with |- context [CreateDocument_while fuel ?d w] =>
    destruct (CreateDocument_while_frame d fuel d w (or_introl eq_refl))
      as (calls & _ & _ & Hsame);
    destruct (CreateDocument_while fuel d w) as [[[response|d']|e|] w']
  end; exact Hsame.
Qed.

(** X13.  Each handler keeps to its part of the world, on every request:
    the document handlers and the converter never change who is logged
    in or the account table; [Auth], [Logout], [GetDocument] and the
    converter never change the document store or the source of
    identifiers; [SaveDocument] and [DeleteDocument] do not draw
    identifiers, and [Logout] does not touch the account table. *)
Theorem handlers_keep_to_their_part w request_data id fuel :
  (same_accounts w (AsciiDocToHtml request_data tt w).2 ∧
   same_accounts w (CreateDocument fuel request_data tt w).2 ∧
   same_accounts w (GetDocument request_data id w).2 ∧
   same_accounts w (SaveDocument request_data id w).2 ∧
   same_accounts w (DeleteDocument request_data id w).2) ∧
  (same_documents w (AsciiDocToHtml request_data tt w).2 ∧
   same_documents w (Auth request_data tt w).2 ∧
   same_documents w (Logout request_data tt w).2 ∧
   same_documents w (GetDocument request_data id w).2) ∧
  (rng (SaveDocument request_data id w).2 = rng w ∧
   rng (DeleteDocument request_data id w).2 = rng w ∧
   users (Logout request_data tt w).2 = users w).
Proof.
  destruct (AsciiDocToHtml_frame request_data w) as [? ?].
  destruct (GetDocument_frame request_data id w) as [? ?].
  destruct (Logout_frame request_data w) as [? ?].
  destruct (SaveDocument_frame request_data id w) as [? ?].
  destruct (DeleteDocument_frame request_data id w) as [? ?].
  pose proof (CreateDocument_frame fuel request_data w).
  assert (same_documents w (Auth request_data tt w).2).
  { destruct (Auth request_data tt w) as [o w'] eqn:Hrun. simpl.
    destruct (Auth_all_or_nothing _ _ _ _ Hrun)
      as [(calls & Hlog & _)
         | (calls & w1 & accounts & user & us & Hlog & _ & _ & _ & ->)];
      destruct (only_logged_frame _ _ _ Hlog) as [_ Hdocuments];
      exact Hdocuments. }
  repeat match goal with |- _ ∧ _ => split end; assumption.
Qed.

End MoreProperties.

(** * The URL map *)

Import Routing.

Lemma url_map_rules :
  url_map = [
    mkRule [] ["GET"; "HEAD"; "OPTIONS"] "RenderRoot";
    mkRule [Lit "scratch"] ["GET"; "HEAD"; "OPTIONS"] "RenderScratchEditor";
    mkRule [Lit "d"; Var "document_id"] ["GET"; "HEAD"; "OPTIONS"]
      "RenderEditorForDocument";
    mkRule [Lit "home"] ["GET"; "HEAD"; "OPTIONS"] "RenderDocumentList";
    mkRule [Lit "sitemap.xml"] ["GET"; "HEAD"; "OPTIONS"] "RenderSitemap";
    mkRule [Lit "api"; Lit "v1"; Lit "asciidoc-to-html"]
      ["POST"; "OPTIONS"] "AsciiDocToHtml";
    mkRule [Lit "api"; Lit "v1"; Lit "auth"] ["POST"; "OPTIONS"] "Auth";
    mkRule [Lit "api"; Lit "v1"; Lit "logout"] ["POST"; "OPTIONS"] "Logout";
    mkRule [Lit "api"; Lit "v1"; Lit "documents"] ["PUT"; "OPTIONS"]
      "CreateDocument";
    mkRule [Lit "api"; Lit "v1"; Lit "documents"; Var "document_id"]
      ["POST"; "OPTIONS"] "GetDocument";
    mkRule [Lit "api"; Lit "v1"; Lit "documents"; Var "document_id"]
      ["POST"; "OPTIONS"] "SaveDocument";
    mkRule [Lit "api"; Lit "v1"; Lit "documents"; Var "document_id"]
      ["DELETE"; "OPTIONS"] "DeleteDocument" ].
Proof. reflexivity. Qed.

(** ** Paths and their parts *)

Lemma split_slash_part (part : string) :
  slash_free part = true -> split_slash part = [part].
Proof.
  induction part as [|c part IH]; simpl; [reflexivity|].
  destruct (Ascii.eqb c "/"); simpl; [discriminate|].
  intros Hfree. rewrite (IH Hfree). reflexivity.
Qed.

Lemma split_slash_cons (part rest : string) :
  slash_free part = true ->
  split_slash (part ++ "/" ++ rest) = part :: split_slash rest.
Proof.
  induction part as [|c part IH]; simpl; [reflexivity|].
  destruct (Ascii.eqb c "/"); simpl; [discriminate|].
  intros Hfree. rewrite (IH Hfree). reflexivity.
Qed.

Lemma split_slash_join (parts : list string) :
  parts ≠ [] ->
  Forall (fun part => slash_free part = true) parts ->
  split_slash (join_slash parts) = parts.
Proof.
  induction parts as [|part parts IH]; [congruence|].
  intros _ Hfree. inversion Hfree as [|? ? Hpart Hparts]; subst.
  destruct parts as [|part' parts].
  - simpl. apply split_slash_part, Hpart.
  - change (join_slash (part :: part' :: parts))
      with (part ++ "/" ++ join_slash (part' :: parts)).
    rewrite split_slash_cons by exact Hpart.
    rewrite IH by (congruence || assumption). reflexivity.
Qed.

(** Building a path from its parts and taking it apart again gives the
    parts back, for every list of parts that are not empty and hold no
    slash. *)
Lemma path_segments_of_built_path (parts : list string) :
  Forall (fun part => path_part part = true) parts ->
  path_segments ("/" ++ join_slash parts) = parts.
Proof.
  intros Hparts. unfold path_segments.
  change (lstrip_slash ("/" ++ join_slash parts))
    with (lstrip_slash (join_slash parts)).
  destruct parts as [|part parts]; [reflexivity|].
  assert (Hfree : Forall (fun part => slash_free part = true)
                    (part :: parts)).
  { eapply Forall_impl; [exact Hparts|]. intros p Hp.
    apply andb_true_iff in Hp. apply Hp. }
  inversion Hparts as [|? ? Hpart _]; subst.
  apply andb_true_iff in Hpart. destruct Hpart as [Hne Hpart].
  destruct part as [|c part]; [discriminate Hne|].
  assert (Hc : Ascii.eqb c "/" = false).
  { simpl in Hpart. destruct (Ascii.eqb c "/"); [discriminate|reflexivity]. }
  assert (Hjoin : ∃ tail, join_slash (String c part :: parts)
                          = String c tail).
  { destruct parts; simpl; eexists; reflexivity. }
  destruct Hjoin as [tail Hjoin].
  rewrite Hjoin. cbn [lstrip_slash]. rewrite Hc, <- Hjoin.
  apply split_slash_join; [congruence | exact Hfree].
Qed.

(** ** Matching requests *)

Ltac try_next_rule :=
  match goal with
  | |- context [match match_segments ?pattern ?parts with _ => _ end] =>
      destruct (match_segments pattern parts) eqn:?
  | |- context [if has_method ?method ?methods then _ else _] =>
      destruct (has_method method methods) eqn:?
  end.

(** A rule for another endpoint does not decide whether [endpoint] is
    found. *)
Lemma match_rules_skip (r : rule) rules method parts flag endpoint values :
  rule_endpoint r ≠ endpoint ->
  match_rules (r :: rules) method parts flag = Found endpoint values ->
  ∃ flag', match_rules rules method parts flag' = Found endpoint values.
Proof.
  intros Hother. cbn [match_rules].
  destruct (match_segments (rule_segments r) parts); [|eauto].
  destruct (has_method method (rule_methods r)); [|eauto].
  intros [= Hendpoint _]. contradiction.
Qed.

Lemma match_rules_never_SaveDocument method parts values :
  match_rules url_map method parts false ≠ Found "SaveDocument" values.
Proof.
  rewrite url_map_rules. intros Hfound.
  do 9 (apply match_rules_skip in Hfound; [|discriminate];
        destruct Hfound as [? Hfound]).
  revert Hfound.
  cbn [match_rules rule_segments rule_methods rule_endpoint].
  repeat (try_next_rule; try discriminate).
  all: match goal with
       | |- (if ?flag then _ else _) = _ -> _ => destruct flag; discriminate
       end.
Qed.

(** X14.  The rule of [SaveDocument] is shadowed: it is registered after
    the rule of [GetDocument], with the same path and the same method,
    so no request, whatever its method and path, is matched to
    [SaveDocument].  A POST to /api/v1/documents/<id> is matched to
    [GetDocument], a DELETE to [DeleteDocument]. *)
Theorem SaveDocument_is_never_matched :
  (∀ method path values,
     url_match method path ≠ Found "SaveDocument" values) ∧
  (∀ id, path_part id = true ->
     url_match "POST" ("/api/v1/documents/" ++ id)
       = Found "GetDocument" [("document_id", id)] ∧
     url_match "DELETE" ("/api/v1/documents/" ++ id)
       = Found "DeleteDocument" [("document_id", id)]).
Proof.
  split.
  - intros method path values. apply match_rules_never_SaveDocument.
  - intros id Hid. unfold url_match.
    change ("/api/v1/documents/" ++ id)
      with ("/" ++ join_slash ["api"; "v1"; "documents"; id]).
    rewrite path_segments_of_built_path
      by (repeat constructor; exact Hid).
    apply andb_true_iff in Hid. destruct Hid as [Hne _].
    destruct id as [|c id]; [discriminate Hne|].
    split; reflexivity.
Qed.

Ltac compare_parts :=
  repeat match goal with
    | H : context [String.eqb ?x ?y] |- _ =>
        first
          [ is_var y; destruct (String.eqb_spec x y); [subst y|];
            cbn -[String.eqb] in *; try discriminate
          | let b := eval vm_compute in (String.eqb x y) in
            change (String.eqb x y) with b in H;
            cbn -[String.eqb] in H; try discriminate ]
    end.

(** X15.  No path is matched by two rules of different shape: rules
    that match the same path have the same pattern.  The order in which
    Werkzeug tries the rules therefore matters only among the rules of
    one pattern, which it tries in the order of registration. *)
Theorem rules_that_overlap_have_one_pattern (parts : list string)
    (r1 r2 : rule) :
  r1 ∈ url_map -> r2 ∈ url_map ->
  is_Some (match_segments (rule_segments r1) parts) ->
  is_Some (match_segments (rule_segments r2) parts) ->
  rule_segments r1 = rule_segments r2.
Proof.
  rewrite url_map_rules. intros H1 H2 [values1 Hmatch1].
  repeat (apply elem_of_cons in H1 as [-> | H1]);
    [..|apply elem_of_nil in H1; contradiction];
    cbn [rule_segments] in *;
    destruct parts as [|a [|b [|c [|d [|e parts]]]]];
    cbn -[String.eqb] in Hmatch1; try discriminate Hmatch1;
    compare_parts; clear Hmatch1;
    intros [values2 Hmatch2];
    (repeat (apply elem_of_cons in H2 as [-> | H2]);
     [..|apply elem_of_nil in H2; contradiction]);
    try reflexivity; exfalso;
    cbn -[String.eqb] in Hmatch2; try discriminate Hmatch2;
    compare_parts.
Qed.

(** X16.  Every rule without a variable can be reached through its
    endpoint: [url_for] of the endpoint, with or without the leading
    dot, builds the path of the rule, and a request for that path under
    any method of the rule is matched to the endpoint. *)
Theorem url_for_leads_to_its_endpoint (r : rule) (parts : list string) :
  r ∈ url_map ->
  literal_parts (rule_segments r) = Some parts ->
  url_for (rule_endpoint r) = Return ("/" ++ join_slash parts) ∧
  url_for ("." ++ rule_endpoint r) = Return ("/" ++ join_slash parts) ∧
  ∀ method,
    has_method method (rule_methods r) = true ->
    url_match method ("/" ++ join_slash parts)
      = Found (rule_endpoint r) [].
Proof.
  rewrite url_map_rules. intros Hin Hliteral.
  repeat (apply elem_of_cons in Hin as [-> | Hin]);
    [..|apply elem_of_nil in Hin; contradiction];
    cbn [rule_segments literal_parts fmap option_fmap option_map]
      in Hliteral;
    try discriminate Hliteral;
    injection Hliteral as <-;
    (split; [vm_compute; reflexivity|]);
    (split; [vm_compute; reflexivity|]);
    intros method; cbn [rule_methods has_method];
    repeat match goal with
      | |- context [String.eqb ?x method] =>
          destruct (String.eqb_spec x method) as [Heq|_];
          [intros _; rewrite <- Heq; vm_compute; reflexivity|cbn [orb]]
      end;
    intros Hmethod; discriminate Hmethod.
Qed.

(** * The pages *)

Section PageProperties.

Context {User Fields Store Users Rng : Type}.
Context `{!Collaborators User Fields Store Users Rng}.
Context `{!PageCollaborators User Fields Store}.

Implicit Types (w : World User Fields Store Users Rng).
Implicit Types (args : gmap string (list string)) (id : string).
Implicit Types (s template : string).

(** ** [strip] *)

Lemma lstrip_spec s :
  ∃ pre, s = pre ++ lstrip s ∧ all_space pre = true ∧
         starts_with_space (lstrip s) = false.
Proof.
  induction s as [|c s (pre & Hs & Hpre & Hstart)].
  - exists EmptyString. repeat split.
  - simpl. destruct (isspace c) eqn:Hc.
    + exists (String c pre). simpl. rewrite Hc, Hpre.
      split; [change (String c s = String c (pre ++ lstrip s));
              f_equal; exact Hs|].
      split; [reflexivity | exact Hstart].
    + exists EmptyString. simpl. rewrite Hc. repeat split.
Qed.

Lemma rstrip_spec s :
  ∃ post, s = rstrip s ++ post ∧ all_space post = true ∧
          ends_with_space (rstrip s) = false.
Proof.
  induction s as [|c s (post & Hs & Hpost & Hend)].
  - exists EmptyString. repeat split.
  - simpl. destruct (rstrip s) as [|k kept] eqn:Hkept.
    + change (s = post) in Hs. subst post. destruct (isspace c) eqn:Hc.
      * exists (String c s). simpl. rewrite Hc, Hpost. repeat split.
      * exists s. simpl. rewrite Hc. repeat split. exact Hpost.
    + exists post.
      split; [change (String c s = String c (String k kept ++ post));
              f_equal; exact Hs|].
      split; [exact Hpost | exact Hend].
Qed.

Lemma rstrip_keeps_start s :
  starts_with_space s = false -> starts_with_space (rstrip s) = false.
Proof.
  destruct s as [|c s]; [reflexivity|]. simpl. intros Hc.
  destruct (rstrip s); [rewrite Hc|]; simpl; try rewrite Hc; reflexivity.
Qed.

Lemma strip_spec s :
  ∃ pre post,
    s = pre ++ strip s ++ post ∧
    all_space pre = true ∧ all_space post = true ∧
    starts_with_space (strip s) = false ∧
    ends_with_space (strip s) = false.
Proof.
  destruct (lstrip_spec s) as (pre & Hs & Hpre & Hstart).
  destruct (rstrip_spec (lstrip s)) as (post & Hl & Hpost & Hend).
  exists pre, post. unfold strip.
  split; [rewrite <- Hl; exact Hs|].
  split; [exact Hpre|]. split; [exact Hpost|].
  split; [apply rstrip_keeps_start, Hstart | exact Hend].
Qed.

(** ** Running the pages *)

Lemma RenderTemplate_run template
    (extra_args : option (gmap string (template_value User Fields))) w :
  _RenderTemplate template extra_args w =
    (Return (strip (render_template template
                      (template_args (current_user w) extra_args))), w).
Proof. reflexivity. Qed.

Lemma login_required_run {Args}
    (func : gmap string (list string) -> Args -> M page) args
    (view_args : Args) w :
  login_required func args view_args w =
    match current_user w with
    | Some _ => func args view_args w
    | None => (Return Unauthorized, w)
    end.
Proof.
  unfold login_required. rewrite bind_run. unfold is_authenticated.
  destruct (current_user w) as [u|].
  - rewrite bool_decide_eq_true_2 by eauto. reflexivity.
  - rewrite bool_decide_eq_false_2 by (intros [? ?]; discriminate).
    reflexivity.
Qed.

Lemma RenderEditorForDocument_body_run args id w :
  RenderEditorForDocument_body args id w =
    match Get (store w) id with
    | None => (Return (Redirect "/"), logged (CallGet id) w)
    | Some document =>
        if IsReadableByUser document (current_user w)
        then (Return (Html (strip (render_template (editor_template args)
                 (template_args (current_user w)
                    (Some {[ "document" := TDocument (Some document) ]}))))),
              logged (CallIsReadableByUser document) (logged (CallGet id) w))
        else (Return (Redirect "/"),
              logged (CallIsReadableByUser document) (logged (CallGet id) w))
    end.
Proof.
  unfold RenderEditorForDocument_body. rewrite bind_run.
  unfold call_Get. destruct (Get (store w) id) as [document|];
    [|reflexivity].
  rewrite bind_run. unfold call_IsReadableByUser. simpl.
  destruct (IsReadableByUser document (current_user w)); reflexivity.
Qed.

Lemma RenderDocumentList_run args w (u : User) :
  current_user w = Some u ->
  RenderDocumentList args tt w =
    (Return (Html (strip (render_template "document_list.html"
       (template_args (Some u)
          (Some {[ "documents" :=
                     TDocuments (GetOwnedDocuments u (store w)) ]}))))), w).
Proof.
  intros Hu. unfold RenderDocumentList. rewrite login_required_run, Hu.
  unfold RenderDocumentList_body. rewrite bind_run.
  unfold call_GetOwnedDocuments. rewrite Hu.
  rewrite bind_run, RenderTemplate_run, Hu. reflexivity.
Qed.

Lemma RenderScratchEditor_run args w :
  ∃ body, RenderScratchEditor args tt w = (Return (Html body), w).
Proof.
  unfold RenderScratchEditor. rewrite bind_run.
  destruct (in_args "new" args); eexists; reflexivity.
Qed.

Lemma RenderRoot_run args w :
  RenderRoot args tt w =
    (Return
       (if in_args "_escaped_fragment_" args
        then Html (strip (render_template "static.html"
                            (template_args (current_user w) None)))
        else match current_user w with
             | Some _ => Redirect "/home"
             | None => Redirect "/scratch"
             end), w).
Proof.
  unfold RenderRoot. destruct (in_args "_escaped_fragment_" args);
    [reflexivity|].
  rewrite bind_run. unfold is_authenticated.
  destruct (current_user w) as [u|].
  - rewrite bool_decide_eq_true_2 by eauto. reflexivity.
  - rewrite bool_decide_eq_false_2 by (intros [? ?]; discriminate).
    reflexivity.
Qed.

Lemma template_args_extra (user : option User)
    (extra : gmap string (template_value User Fields)) key value :
  extra !! key = Some value ->
  template_args user (Some extra) !! key = Some value.
Proof.
  intros Hkey. unfold template_args.
  destruct (size extra =? 0)%nat eqn:Hsize; simpl.
  - apply Nat.eqb_eq, map_size_empty_inv in Hsize. subst extra.
    rewrite lookup_empty in Hkey. discriminate Hkey.
  - apply lookup_union_Some_l, Hkey.
Qed.

Lemma template_args_user (user : option User)
    (extra_args : option (gmap string (template_value User Fields))) :
  (∀ extra, extra_args = Some extra -> extra !! "user" = None) ->
  template_args user extra_args !! "user" = Some (TUser user).
Proof.
  intros Hfree. unfold template_args.
  destruct extra_args as [extra|]; [|apply lookup_singleton_eq].
  destruct (size extra =? 0)%nat; simpl; [apply lookup_singleton_eq|].
  rewrite lookup_union_r by (apply Hfree; reflexivity).
  apply lookup_singleton_eq.
Qed.

(** X17.  [_RenderTemplate] renders the template with the extra
    arguments and, unless they name a "user" themselves, the current
    user as "user", and returns the rendered text without the whitespace
    around it: the text is the result between two runs of whitespace,
    and the result neither begins nor ends with whitespace.  The world
    is untouched. *)
Theorem RenderTemplate_strips_the_rendered_text template
    (extra_args : option (gmap string (template_value User Fields))) w :
  let args := template_args (current_user w) extra_args in
  (∀ extra key value,
     extra_args = Some extra -> extra !! key = Some value ->
     args !! key = Some value) ∧
  ((∀ extra, extra_args = Some extra -> extra !! "user" = None) ->
   args !! "user" = Some (TUser (current_user w))) ∧
  ∃ pre body post,
    _RenderTemplate template extra_args w = (Return body, w) ∧
    render_template template args = pre ++ body ++ post ∧
    all_space pre = true ∧ all_space post = true ∧
    starts_with_space body = false ∧ ends_with_space body = false.
Proof.
  simpl. split; [|split].
  - intros extra key value -> Hkey. apply template_args_extra, Hkey.
  - apply template_args_user.
  - rewrite RenderTemplate_run.
    destruct (strip_spec (render_template template
                (template_args (current_user w) extra_args)))
      as (pre & post & Hs & Hpre & Hpost & Hstart & Hend).
    eexists pre, _, post. split; [reflexivity|].
    split; [exact Hs|]. repeat split; assumption.
Qed.

(** X18.  The two pages behind [login_required] answer the
    unauthorized response exactly when nobody is logged in, and then
    without a call and without a change to the world, as does every view
    behind [login_required]; the three public pages never answer it. *)
Theorem login_required_pages_refuse_anonymous args id w :
  ((RenderEditorForDocument args id w).1 = Return Unauthorized
     ↔ current_user w = None) ∧
  ((RenderDocumentList args tt w).1 = Return Unauthorized
     ↔ current_user w = None) ∧
  (current_user w = None ->
   ∀ {Args} (func : gmap string (list string) -> Args -> M page)
     (view_args : Args),
     login_required func args view_args w = (Return Unauthorized, w)) ∧
  (RenderRoot args tt w).1 ≠ Return Unauthorized ∧
  (RenderScratchEditor args tt w).1 ≠ Return Unauthorized ∧
  (RenderSitemap args tt w).1 ≠ Return Unauthorized.
Proof.
  split; [|split; [|split; [|split; [|split]]]].
  - unfold RenderEditorForDocument.
    rewrite login_required_run, RenderEditorForDocument_body_run.
    destruct (current_user w) as [u|]; [|split; reflexivity].
    split; [|discriminate].
    destruct (Get (store w) id) as [document|]; [|discriminate].
    destruct (IsReadableByUser document (Some u)); discriminate.
  - destruct (current_user w) as [u|] eqn:Hu.
    + rewrite (RenderDocumentList_run _ _ u Hu). split; discriminate.
    + unfold RenderDocumentList. rewrite login_required_run, Hu.
      split; reflexivity.
  - intros Hanon Args func view_args.
    rewrite login_required_run, Hanon. reflexivity.
  - rewrite RenderRoot_run. simpl.
    destruct (in_args "_escaped_fragment_" args); [discriminate|].
    destruct (current_user w); discriminate.
  - destruct (RenderScratchEditor_run args w) as [body ->]. discriminate.
  - discriminate.
Qed.

(** X19.  For a logged-in user, [RenderEditorForDocument] renders the
    editor exactly when the store finds the document and the user may
    read it, and then on that document and that user, with the template
    that the "header" argument selects.  In every other case -- an
    unknown identifier, or a document the user may not read -- it
    answers the same redirect to "/", the path of [RenderRoot]; the two
    cases cannot be told apart from the response. *)
Theorem RenderEditorForDocument_renders_iff_readable args id w (u : User) :
  current_user w = Some u ->
  (∀ body,
     (RenderEditorForDocument args id w).1 = Return (Html body) ↔
     ∃ document,
       Get (store w) id = Some document ∧
       IsReadableByUser document (Some u) = true ∧
       body = strip (render_template
                       (if in_args "header" args then "editor_header.html"
                        else "editor.html")
                       (template_args (Some u)
                          (Some {[ "document" :=
                                     TDocument (Some document) ]})))) ∧
  ((∀ document, Get (store w) id = Some document ->
                IsReadableByUser document (Some u) = false) ->
   (RenderEditorForDocument args id w).1 = Return (Redirect "/")) ∧
  Routing.url_match "GET" "/" = Routing.Found "RenderRoot" [].
Proof.
  intros Hu. unfold RenderEditorForDocument.
  rewrite login_required_run, RenderEditorForDocument_body_run, Hu.
  split; [|split; [|reflexivity]].
  - intros body. destruct (Get (store w) id) as [document|].
    + destruct (IsReadableByUser document (Some u)) eqn:Hread; simpl.
      * split.
        -- intros [= <-]. exists document. repeat split. exact Hread.
        -- intros (d & [= <-] & _ & ->). reflexivity.
      * split; [discriminate|].
        intros (d & [= <-] & Hd & _). congruence.
    + simpl. split; [discriminate|]. intros (d & Hd & _). discriminate Hd.
  - intros Hunreadable. destruct (Get (store w) id) as [document|];
      [|reflexivity].
    rewrite (Hunreadable document eq_refl). reflexivity.
Qed.

(** X20.  The pages only read.  Every page answers (none raises:
    the endpoints they redirect to exist, and [GetOwnedDocuments] is
    asked of a logged-in user only); the four pages other than the
    document editor leave the world as it is, call log included; the
    document editor changes nothing but the call log, to which it adds
    the lookup of the identifier and, when a document is found, the
    question whether the current user may read it. *)
Theorem pages_only_read args id w :
  ((∃ p, (RenderRoot args tt w).1 = Return p) ∧
   (∃ p, (RenderScratchEditor args tt w).1 = Return p) ∧
   (∃ p, (RenderEditorForDocument args id w).1 = Return p) ∧
   (∃ p, (RenderDocumentList args tt w).1 = Return p) ∧
   (∃ p, (RenderSitemap args tt w).1 = Return p)) ∧
  ((RenderRoot args tt w).2 = w ∧
   (RenderScratchEditor args tt w).2 = w ∧
   (RenderDocumentList args tt w).2 = w ∧
   (RenderSitemap args tt w).2 = w) ∧
  ∃ calls,
    only_logged calls w (RenderEditorForDocument args id w).2 ∧
    (calls = [] ∧ current_user w = None ∨
     calls = [CallGet id] ∧ Get (store w) id = None ∨
     ∃ document, calls = [CallGet id; CallIsReadableByUser document] ∧
                 Get (store w) id = Some document).
Proof.
  assert (Hlist : (∃ p, (RenderDocumentList args tt w).1 = Return p) ∧
                  (RenderDocumentList args tt w).2 = w).
  { destruct (current_user w) as [u|] eqn:Hu.
    - rewrite (RenderDocumentList_run _ _ u Hu). eauto.
    - unfold RenderDocumentList. rewrite login_required_run, Hu. eauto. }
  destruct Hlist as [Hlist1 Hlist2].
  destruct (RenderScratchEditor_run args w) as [scratch Hscratch].
  split; [|split].
  - rewrite RenderRoot_run, Hscratch.
    repeat match goal with |- _ ∧ _ => split end; eauto.
    unfold RenderEditorForDocument.
    rewrite login_required_run, RenderEditorForDocument_body_run.
    destruct (current_user w) as [u|]; [|eauto].
    destruct (Get (store w) id) as [document|]; [|eauto].
    destruct (IsReadableByUser document (Some u)); eauto.
  - rewrite RenderRoot_run, Hscratch. repeat split. exact Hlist2.
  - unfold RenderEditorForDocument.
    rewrite login_required_run, RenderEditorForDocument_body_run.
    destruct (current_user w) as [u|] eqn:Hu.
    + destruct (Get (store w) id) as [document|] eqn:Hget.
      * exists [CallGet id; CallIsReadableByUser document].
        split; [|right; right; eauto].
        destruct (IsReadableByUser document (Some u));
          unfold only_logged, logged; simpl; rewrite <- app_assoc;
          reflexivity.
      * exists [CallGet id]. split; [|right; left; eauto].
        reflexivity.
    + exists []. split; [apply only_logged_nil | left; eauto].
Qed.

(** X21.  [RenderRoot] never renders a page of the application itself.
    A request with "_escaped_fragment_" in its query gets the static
    page, logged in or not.  Any other request is redirected, by the
    session alone, to a path that the URL map gives to a page which
    renders for that session: a logged-in user to "/home", the path of
    [RenderDocumentList], which answers them with the list of the
    documents they own; anybody else to "/scratch", the path of
    [RenderScratchEditor], which answers everybody. *)
Theorem RenderRoot_redirects_to_a_page_that_renders args w :
  (in_args "_escaped_fragment_" args = true ->
   RenderRoot args tt w =
     (Return (Html (strip (render_template "static.html"
                             {[ "user" := TUser (current_user w) ]}))),
      w)) ∧
  (in_args "_escaped_fragment_" args = false ->
   (∀ u : User, current_user w = Some u ->
      RenderRoot args tt w = (Return (Redirect "/home"), w) ∧
      Routing.url_match "GET" "/home"
        = Routing.Found "RenderDocumentList" [] ∧
      ∀ args',
        RenderDocumentList args' tt w =
          (Return (Html (strip (render_template "document_list.html"
             (template_args (Some u)
                (Some {[ "documents" :=
                           TDocuments (GetOwnedDocuments u (store w)) ]}))))),
           w)) ∧
   (current_user w = None ->
      RenderRoot args tt w = (Return (Redirect "/scratch"), w) ∧
      Routing.url_match "GET" "/scratch"
        = Routing.Found "RenderScratchEditor" [] ∧
      ∀ args', ∃ body,
        RenderScratchEditor args' tt w = (Return (Html body), w))).
Proof.
  rewrite RenderRoot_run. split.
  - intros ->. reflexivity.
  - intros ->. split.
    + intros u Hu. rewrite Hu. split; [reflexivity|].
      split; [reflexivity|]. intros args'.
      apply RenderDocumentList_run, Hu.
    + intros Hanon. rewrite Hanon. split; [reflexivity|].
      split; [reflexivity|]. intros args'. apply RenderScratchEditor_run.
Qed.

(** X22.  [RenderScratchEditor] answers everybody with the editor, on no
    document and on the current user; "header" in the query selects the
    template.  The text the editor starts with is empty when "new" is in
    the query and the stripped introduction otherwise, so it never begins
    or ends with whitespace. *)
Theorem RenderScratchEditor_text_is_stripped args w :
  ∃ text,
    let extra : gmap string (template_value User Fields) :=
      {[ "document" := TDocument None;
         "asciidoc_editor_text" := TText text ]} in
    let passed := template_args (current_user w) (Some extra) in
    RenderScratchEditor args tt w =
      (Return (Html (strip (render_template
                              (if in_args "header" args
                               then "editor_header.html" else "editor.html")
                              passed))), w) ∧
    passed !! "document" = Some (TDocument None) ∧
    passed !! "asciidoc_editor_text" = Some (TText text) ∧
    passed !! "user" = Some (TUser (current_user w)) ∧
    text = (if in_args "new" args then EmptyString
            else strip (render_template "intro.txt"
                          {[ "user" := TUser (current_user w) ]})) ∧
    starts_with_space text = false ∧ ends_with_space text = false.
Proof.
  exists (if in_args "new" args then EmptyString
          else strip (render_template "intro.txt"
                        {[ "user" := TUser (current_user w) ]})).
  cbv zeta. split; [|split; [|split; [|split; [|split; [reflexivity|]]]]].
  - unfold RenderScratchEditor. rewrite bind_run.
    destruct (in_args "new" args); reflexivity.
  - apply template_args_extra, lookup_insert_eq.
  - apply template_args_extra.
    rewrite lookup_insert_ne by discriminate. apply lookup_singleton_eq.
  - apply template_args_user. intros extra [= <-].
    rewrite lookup_insert_ne by discriminate.
    apply lookup_singleton_ne. discriminate.
  - destruct (in_args "new" args); [split; reflexivity|].
    destruct (strip_spec (render_template "intro.txt"
                {[ "user" := TUser (current_user w) ]}))
      as (pre & post & _ & _ & _ & Hstart & Hend).
    split; [exact Hstart | exact Hend].
Qed.

End PageProperties.

(** * The further properties on the instances *)

Import Runs.

(** The text gate before the converter: a number raises, a missing
    "text" is refused, a short text goes through. *)
Lemma text_gate_outcomes_witness :
  _RequireText AsciiDocToHtml_body (JNum 5) tt anonymous =
    (Raise TypeError, anonymous) ∧
  _RequireText AsciiDocToHtml_body (JObj ∅) tt anonymous =
    (Return _INVALID_REQUEST_RESPONSE, anonymous) ∧
  _RequireText AsciiDocToHtml_body (text_request "abc") tt anonymous =
    AsciiDocToHtml_body (text_request "abc") tt anonymous.
Proof.
  split; [|split].
  - apply (text_gate_outcomes AsciiDocToHtml_body (JNum 5) tt anonymous).
    exact I.
  - apply (text_gate_outcomes AsciiDocToHtml_body (JObj ∅) tt anonymous).
    left. reflexivity.
  - apply (text_gate_outcomes AsciiDocToHtml_body (text_request "abc") tt
             anonymous).
    exact valid_text_request_abc.
Defined.

(** A number for a body, and a "text" that is null. *)
Lemma ill_typed_text_raises_witness :
  AsciiDocToHtml (JNum 5) tt as_alice = (Raise TypeError, as_alice) ∧
  SaveDocument (JObj {[ "text" := JNull ]}) "d2" as_alice =
    (Raise TypeError, as_alice).
Proof.
  split.
  - apply (ill_typed_text_raises as_alice (JNum 5)). exact I.
  - assert (Hill : ill_typed_text (JObj {[ "text" := JNull ]}))
      by (exists JNull; split; reflexivity).
    apply (proj2 (ill_typed_text_raises as_alice _ Hill) "alice").
    reflexivity.
Defined.

(** An empty object, and an object with an empty list of accounts. *)
Lemma Auth_refuses_missing_accounts_witness :
  Auth (JObj ∅) tt anonymous =
    (Return (json_dumps _INVALID_REQUEST_RESPONSE), anonymous) ∧
  Auth (JObj {[ "accounts" := JList [] ]}) tt anonymous =
    (Return (json_dumps _INVALID_REQUEST_RESPONSE), anonymous).
Proof.
  split.
  - apply (Auth_refuses_missing_accounts ∅ anonymous).
    left. reflexivity.
  - apply (Auth_refuses_missing_accounts {[ "accounts" := JList [] ]}
             anonymous).
    right. right. reflexivity.
Defined.

Lemma assertion_of_carol_accepted :
  accepted assertion_of_carol (JStr "google", JStr "carol", JObj ∅).
Proof. reflexivity. Qed.

Lemma assertion_object_of_carol : assertion_object assertion_of_carol.
Proof. eexists _, (JObj ∅). repeat split. Qed.

(** Carol's complete assertion: she is found or created and logged
    in. *)
Lemma Auth_on_lists_of_assertion_objects_witness :
  ∃ calls w1 (user : User) us,
    only_logged calls anonymous w1 ∧
    forallb is_token_check calls = true ∧
    FindOrCreateUser [(JStr "google", JStr "carol", JObj ∅)]
      (users anonymous) = (user, us) ∧
    Auth auth_request_of_carol tt anonymous =
      (Return (json_dumps {[ "success" := JBool true;
                             "user_id" := user_id user ]}),
       with_current_user (Some user)
         (logged (CallLoginUser user)
            (with_users us
               (logged (CallFindOrCreateUser
                          [(JStr "google", JStr "carol", JObj ∅)]) w1)))).
Proof.
  assert (Hm : ({[ "accounts" := JList [assertion_of_carol] ]} : dict)
                 !! "accounts" = Some (JList [assertion_of_carol]))
    by reflexivity.
  apply (Auth_on_lists_of_assertion_objects _ [assertion_of_carol]
           anonymous Hm).
  - discriminate.
  - constructor; [exact assertion_object_of_carol | constructor].
  - constructor; [exact assertion_of_carol_accepted | constructor].
Defined.

(** After Carol's assertion an empty object is refused; a number behind
    it, on which the shape check would raise, is never reached. *)
Lemma Auth_stops_at_first_refusal_witness :
  Auth (JObj (<[ "accounts" :=
                   JList ([assertion_of_carol] ++ JObj ∅ :: [])%list ]> ∅))
    tt anonymous =
  Auth (JObj (<[ "accounts" :=
                   JList ([assertion_of_carol] ++ JObj ∅ :: [JNum 5])%list ]>
                ∅))
    tt anonymous.
Proof.
  apply (Auth_stops_at_first_refusal ∅ [assertion_of_carol]
           [(JStr "google", JStr "carol", JObj ∅)] (JObj ∅) [] [JNum 5]
           anonymous).
  - constructor; [exact assertion_of_carol_accepted | constructor].
  - left. reflexivity.
Defined.

Lemma alice_collides_twice :
  ∃ document' w',
    collides 2 (new_document as_alice (text_request "abc")) as_alice
      document' w'.
Proof.
  eexists _, _.
  eapply collides_S; [reflexivity | reflexivity |].
  eapply collides_S; [reflexivity | reflexivity |].
  apply collides_O.
Qed.

(** The identifier source hands out "d1" and "d2", both taken: two turns
    of the loop give no response. *)
Lemma CreateDocument_retries_without_bound_witness :
  (CreateDocument 2 (text_request "abc") tt as_alice).1 = OutOfFuel.
Proof.
  destruct alice_collides_twice as (document' & w' & Hcollides).
  apply (CreateDocument_retries_without_bound as_alice "alice"
           (text_request "abc") 2 2 document' w').
  - reflexivity.
  - exact valid_text_request_abc.
  - exact Hcollides.
  - lia.
Defined.

Lemma offline_valid_text_request_abc :
  @valid_text _ _ _ _ _ offline (text_request "abc").
Proof. exists 3%nat. split; [reflexivity | discriminate]. Qed.

(** The store cannot be reached: the first save raises, and so does the
    handler. *)
Lemma CreateDocument_raises_other_save_errors_witness :
  ∃ w2,
    @CreateDocument _ _ _ _ _ offline 1 (text_request "abc") tt as_alice =
      (Raise (OtherError "connection refused"), w2).
Proof.
  eexists.
  eapply (@CreateDocument_raises_other_save_errors _ _ _ _ _ offline
            as_alice "alice" (text_request "abc") 0 1).
  - reflexivity.
  - exact offline_valid_text_request_abc.
  - apply collides_O.
  - reflexivity.
  - reflexivity.
  - discriminate.
  - discriminate.
  - lia.
Defined.

Lemma valid_save_request : valid_text save_request.
Proof. exists 8%nat. split; [reflexivity | discriminate]. Qed.

(** Alice saves a new text to her document "d2". *)
Lemma SaveDocument_answers_by_the_save_witness :
  ∃ w',
    SaveDocument save_request "d2" as_alice =
      (Return (json_dumps _SUCCESS_RESPONSE), w').
Proof.
  eexists.
  etransitivity.
  - apply (SaveDocument_answers_by_the_save as_alice "alice" save_request
             "d2" (stored "d2" "alice" "notes")).
    + reflexivity.
    + exact valid_save_request.
    + reflexivity.
    + reflexivity.
  - reflexivity.
Defined.

(** Alice deletes her document "d2" and asks for it again. *)
Lemma DeleteDocument_then_unknown_witness :
  (DeleteDocument JNull "d2" as_alice).1 =
    Return (json_dumps _SUCCESS_RESPONSE) ∧
  (GetDocument JNull "d2" (DeleteDocument JNull "d2" as_alice).2).1 =
    Return (json_dumps _INVALID_DOCUMENT_ID_RESPONSE).
Proof.
  assert (Hgone : Get (delete (stored "d2" "alice" "notes")
                         (store as_alice)) "d2" = None)
    by reflexivity.
  assert (Hsome : Get (store as_alice) "d2"
                  = Some (stored "d2" "alice" "notes"))
    by reflexivity.
  destruct (DeleteDocument_then_unknown as_alice "alice" "d2"
              (stored "d2" "alice" "notes") eq_refl Hsome eq_refl Hgone
              JNull) as (Hdelete & _ & Hget & _).
  split; [exact Hdelete|]. rewrite (Hget JNull). reflexivity.
Defined.

(** A POST for the document "d2". *)
Lemma SaveDocument_is_never_matched_witness :
  url_match "POST" ("/api/v1/documents/" ++ "d2")
    = Found "GetDocument" [("document_id", "d2")] ∧
  url_match "POST" "/api/v1/documents/d2" ≠ Found "SaveDocument" [].
Proof.
  split.
  - apply (proj2 SaveDocument_is_never_matched "d2"). reflexivity.
  - apply (proj1 SaveDocument_is_never_matched).
Defined.

(** The rules of [GetDocument] and [DeleteDocument] on the path of the
    document "d2". *)
Lemma rules_that_overlap_have_one_pattern_witness :
  rule_segments
    (route "/api/v1/documents/<document_id>" (Some ["POST"]) "GetDocument")
  = rule_segments
      (route "/api/v1/documents/<document_id>" (Some ["DELETE"])
         "DeleteDocument").
Proof.
  apply (rules_that_overlap_have_one_pattern
           ["api"; "v1"; "documents"; "d2"]).
  - apply (list_elem_of_lookup_2 _ 9%nat). reflexivity.
  - apply (list_elem_of_lookup_2 _ 11%nat). reflexivity.
  - eexists. reflexivity.
  - eexists. reflexivity.
Defined.

(** The rule of the document list. *)
Lemma url_for_leads_to_its_endpoint_witness :
  url_for ".RenderDocumentList" = Return "/home" ∧
  url_match "HEAD" "/home" = Found "RenderDocumentList" [].
Proof.
  assert (Hin : route "/home" None "RenderDocumentList" ∈ url_map)
    by (apply (list_elem_of_lookup_2 _ 3%nat); reflexivity).
  destruct (url_for_leads_to_its_endpoint
              (route "/home" None "RenderDocumentList") ["home"] Hin
              eq_refl) as (_ & Hbuild & Hmatch).
  split; [exact Hbuild|]. apply (Hmatch "HEAD"). reflexivity.
Defined.

(** The scratch editor's template gets the arguments it is given and
    the anonymous user, and its text is stripped. *)
Lemma RenderTemplate_strips_the_rendered_text_witness :
  template_args (current_user anonymous)
    (Some no_document) !! "user"
    = Some (TUser None) ∧
  ∃ pre body post,
    _RenderTemplate "editor.html"
      (Some no_document) anonymous
      = (Return body, anonymous) ∧
    render_template "editor.html"
      (template_args (current_user anonymous)
         (Some no_document))
      = pre ++ body ++ post ∧
    all_space pre = true ∧ all_space post = true ∧
    starts_with_space body = false ∧ ends_with_space body = false.
Proof.
  destruct (RenderTemplate_strips_the_rendered_text "editor.html"
              (Some no_document) anonymous)
    as (_ & Huser & Hstrip).
  split; [|exact Hstrip].
  apply Huser. intros extra [= <-]. reflexivity.
Defined.

(** Nobody is logged in: the document list is refused. *)
Lemma login_required_pages_refuse_anonymous_witness :
  RenderDocumentList no_args tt anonymous = (Return Unauthorized, anonymous).
Proof.
  apply (login_required_pages_refuse_anonymous no_args "d2" anonymous).
  reflexivity.
Defined.

(** Alice opens her document "d2", and bob's private document "d1". *)
Lemma RenderEditorForDocument_renders_iff_readable_witness :
  (∃ body,
     (RenderEditorForDocument no_args "d2" as_alice).1 = Return (Html body)) ∧
  (RenderEditorForDocument no_args "d1" as_alice).1 = Return (Redirect "/").
Proof.
  split.
  - eexists.
    apply (proj1 (RenderEditorForDocument_renders_iff_readable no_args "d2"
                    as_alice "alice" eq_refl)).
    exists (stored "d2" "alice" "notes"). repeat split.
  - apply (proj2 (RenderEditorForDocument_renders_iff_readable no_args "d1"
                    as_alice "alice" eq_refl)).
    intros document Hget. vm_compute in Hget.
    injection Hget as <-. reflexivity.
Defined.

(** Alice asks for the root, and a crawler does. *)
Lemma RenderRoot_redirects_to_a_page_that_renders_witness :
  RenderRoot no_args tt as_alice = (Return (Redirect "/home"), as_alice) ∧
  ∃ body, RenderRoot crawler_args tt as_alice = (Return (Html body), as_alice).
Proof.
  split.
  - apply (proj1 (proj2 (RenderRoot_redirects_to_a_page_that_renders
                           no_args as_alice) eq_refl) "alice").
    reflexivity.
  - eexists.
    apply (proj1 (RenderRoot_redirects_to_a_page_that_renders crawler_args
                    as_alice)).
    reflexivity.
Defined.
